(** * WebTorrent edge layer: web seed bridge, content server, TCP pool

    A shallow embedding of [lib/webconn.js], [lib/server.js] and
    [lib/tcp-pool.js].  JavaScript numbers that the code uses as byte
    offsets, lengths and indices are integers below 2^53 and are modelled
    as [Z]; objects are records; a field that the code sets to [null] is an
    [option]; a statement that can throw yields a [Completion]. *)

From Stdlib Require Import ZArith QArith List String Ascii Lia Bool.
From stdpp Require Import gmap strings list pretty.

Open Scope string_scope.
Open Scope list_scope.
Open Scope Z_scope.

(** ** JavaScript values used by all three files *)

Inductive JsError : Type :=
| Error_ (message : string)
| TypeError (message : string).

(** The outcome of running a statement list: it returns, or it throws. *)
Inductive Completion (A : Type) : Type :=
| Normal (a : A)
| Throw (e : JsError).
Arguments Normal {A} a.
Arguments Throw {A} e.

Definition bindC {A B} (c : Completion A) (k : A -> Completion B) : Completion B :=
  match c with
  | Normal a => k a
  | Throw e => Throw e
  end.

Notation "'ret!' x <- c ; k" := (bindC c (fun x => k))
  (at level 10, x name, c at level 100, k at level 200).

(** Template-literal rendering of an integer-valued number. *)
Definition show_num (n : Z) : string := pretty n.

(** A callback handed to an asynchronous operation: a function known by
    a tag, or the [() => {}] a method substitutes for a missing one. *)
Inductive Callback : Type :=
| Cb (tag : nat)
| EmptyFn.

(** [arr.indexOf(x)], and [arrayRemove(arr, i)] of the
    [unordered-array-remove] package: the last element takes the place of
    the removed one; an index out of range changes nothing. *)
Fixpoint indexOf {A} `{EqDecision A} (arr : list A) (x : A) : Z :=
  match arr with
  | [] => -1
  | y :: arr' =>
      if decide (y = x) then 0
      else let i := indexOf arr' x in if i <? 0 then -1 else i + 1
  end.

Definition arrayRemove {A} (arr : list A) (i : Z) : list A :=
  if (Z.of_nat (List.length arr) <=? i) || (i <? 0) then arr
  else
    match List.last (map Some arr) None with
    | None => arr
    | Some last =>
        let arr' := removelast arr in
        if i <? Z.of_nat (List.length arr') then <[Z.to_nat i := last]> arr'
        else arr'
    end.

(** ** The torrent and its files, as the three files read them *)

Record File : Type := {
  f_name : string;
  f_path : string;
  f_length : Z;
  f_offset : Z
}.

Record Torrent : Type := {
  t_name : string;
  ready : bool;
  pieceLength : Z;
  pieces : list string;
  files : list File
}.

(** ** lib/webconn.js *)

Module WebConn.

(** A [Buffer] is a sequence of bytes. *)
Definition Buffer := list Byte.byte.

(** The [(list, totalLength)] form of Node's [Buffer.concat]: the result
    has [totalLength] bytes; the inputs are copied in order, cut off at
    [totalLength], and what they do not cover is zero. *)
Definition Buffer_concat (list : list Buffer) (totalLength : Z) : Buffer :=
  let n := Z.to_nat totalLength in
  take n (concat list ++ replicate n Byte.x00).

(** The object [_buildRequests] returns per sub-request.  The
    single-file branch leaves [fileOffsetInRange] undefined. *)
Record Request : Type := {
  r_url : string;
  r_pieceIndex : Z;
  r_offset : Z;
  r_length : Z;
  r_fileOffsetInRange : option Z;
  r_start : Z;
  r_end : Z
}.

(** ** BitField *)

(** Modelled from the spec: the [BitField] collaborator (package
    [bitfield]) is not under lib/; the bridge builds a pieceCount-sized
    bitfield.  As in that package, a bitfield sized for [n] bits is kept in
    [ceil (n / 8)] bytes, bit [i] being bit [128 >> (i mod 8)] of byte
    [i >> 3]; it does not grow, so a write beyond the last byte is lost,
    while a write to a spare bit of the last byte is kept. *)
Module BitField.

Abbreviation t := (list Z) (only parsing).

Definition getByteSize (num : Z) : Z :=
  let out := Z.shiftr num 3 in
  if negb (num mod 8 =? 0) then out + 1 else out.

Definition new (num : Z) : t := replicate (Z.to_nat (getByteSize num)) 0.

Definition mask (i : Z) : Z := Z.shiftr 128 (i mod 8).

Definition get (b : t) (i : Z) : bool :=
  match b !! Z.to_nat (Z.shiftr i 3) with
  | Some byte => negb (Z.land byte (mask i) =? 0)
  | None => false
  end.

(** [set(i, true)] *)
Definition set (b : t) (i : Z) : t :=
  let j := Z.to_nat (Z.shiftr i 3) in
  match b !! j with
  | Some byte => <[j := Z.lor byte (mask i)]> b
  | None => b
  end.

End BitField.

(** ** The wire object *)

(** What the bridge sends through the inherited [Wire] methods. *)
Inductive WireMsg : Type :=
| MsgHandshake (infoHash peerId : string)
| MsgBitfield (bitfield : BitField.t)
| MsgUnchoke.

Record t : Type := {
  url : string;
  webPeerId : string;
  _torrent : option Torrent;
  destroyed : bool;
  (** the two [once] listeners of [_init], still armed or already used *)
  onceHandshake : bool;
  onceInterested : bool
}.

Definition with_torrent (wc : t) (tor : option Torrent) : t :=
  {| url := url wc; webPeerId := webPeerId wc; _torrent := tor;
     destroyed := destroyed wc; onceHandshake := onceHandshake wc;
     onceInterested := onceInterested wc |}.

Definition with_destroyed (wc : t) (d : bool) : t :=
  {| url := url wc; webPeerId := webPeerId wc; _torrent := _torrent wc;
     destroyed := d; onceHandshake := onceHandshake wc;
     onceInterested := onceInterested wc |}.

Definition with_onceHandshake (wc : t) (b : bool) : t :=
  {| url := url wc; webPeerId := webPeerId wc; _torrent := _torrent wc;
     destroyed := destroyed wc; onceHandshake := b;
     onceInterested := onceInterested wc |}.

(** [new WebConn(url, torrent)]; [sha1] is the hash of the [simple-sha1]
    package. *)
Definition constructor (sha1 : string -> string) (u : string) (tor : Torrent) : t :=
  {| url := u; webPeerId := sha1 u; _torrent := Some tor;
     destroyed := false; onceHandshake := true; onceInterested := true |}.

(** The advertisement loop of the handshake listener:
    [for (let i = 0; i <= numPieces; i++) bitfield.set(i, true)]. *)
Definition advertised (numPieces : Z) : BitField.t :=
  fold_left BitField.set (seqZ 0 (numPieces + 1)) (BitField.new numPieces).

(** Body of the listener registered by [this.once('handshake', ...)]:
    what it has sent, and whether it returned or threw. *)
Definition handshakeListener (wc : t) (infoHash peerId : string)
  : list WireMsg * Completion unit :=
  if destroyed wc then ([], Normal ())
  else
    let sent := [MsgHandshake infoHash (webPeerId wc)] in
    match _torrent wc with
    | None => (sent, Throw (TypeError "Cannot read property 'pieces' of null"))
    | Some tor =>
        let numPieces := Z.of_nat (List.length (pieces tor)) in
        (sent ++ [MsgBitfield (advertised numPieces)], Normal ())
    end.

(** Delivery of a ['handshake'] event to the wire: a [once] listener is
    removed before it runs, and runs at most once. *)
Definition emit_handshake (wc : t) (infoHash peerId : string)
  : t * (list WireMsg * Completion unit) :=
  if onceHandshake wc
  then (with_onceHandshake wc false, handshakeListener wc infoHash peerId)
  else (wc, ([], Normal ())).

Definition with_onceInterested (wc : t) (b : bool) : t :=
  {| url := url wc; webPeerId := webPeerId wc; _torrent := _torrent wc;
     destroyed := destroyed wc; onceHandshake := onceHandshake wc;
     onceInterested := b |}.

(** Delivery of an ['interested'] event: the [once] listener of [_init]
    calls [this.unchoke()]. *)
Definition emit_interested (wc : t) : t * list WireMsg :=
  if onceInterested wc
  then (with_onceInterested wc false, [MsgUnchoke])
  else (wc, []).

(** A run of ['interested'] events, and all the bridge sends over it. *)
Fixpoint emit_interested_times (n : nat) (wc : t) : t * list WireMsg :=
  match n with
  | O => (wc, [])
  | S n' =>
      let (wc', sent) := emit_interested wc in
      let (wc'', sent') := emit_interested_times n' wc' in
      (wc'', sent ++ sent')
  end.

(** Modelled from the spec: [Wire.prototype.destroy] of the
    [bittorrent-protocol] package is not under lib/; teardown "marks the
    underlying connection destroyed". *)
Definition Wire_destroy (wc : t) : t := with_destroyed wc true.

Definition destroy (wc : t) : t :=
  with_torrent (Wire_destroy wc) None.

(** ** Building the sub-requests *)

Definition selected (rangeStart rangeEnd : Z) (file : File) : bool :=
  (f_offset file <=? rangeEnd) && (rangeStart <? f_offset file + f_length file).

Definition delimiter (u : string) : string :=
  match String.get (String.length u - 1) u with
  | Some "/"%char => ""
  | _ => "/"
  end.

Definition _buildRequests (wc : t) (pieceIndex offset length : Z)
  : Completion (list Request) :=
  match _torrent wc with
  | None => Throw (TypeError "Cannot read property 'pieceLength' of null")
  | Some tor =>
      let pieceOffset := pieceIndex * pieceLength tor in
      let rangeStart := pieceOffset + offset in
      let rangeEnd := rangeStart + length - 1 in
      let files := files tor in
      if (List.length files <=? 1)%nat then
        Normal [ {| r_url := url wc;
                    r_pieceIndex := pieceIndex;
                    r_offset := offset;
                    r_length := length;
                    r_fileOffsetInRange := None;
                    r_start := rangeStart;
                    r_end := rangeEnd |} ]
      else
        Normal
          (map (fun file =>
                  let fileEnd := f_offset file + f_length file - 1 in
                  {| r_url := url wc +:+ delimiter (url wc) +:+ f_path file;
                     r_pieceIndex := pieceIndex;
                     r_offset := offset;
                     r_length := length;
                     r_fileOffsetInRange := Some (Z.max (f_offset file - rangeStart) 0);
                     r_start := Z.max (rangeStart - f_offset file) 0;
                     r_end := Z.min fileEnd (rangeEnd - f_offset file) |})
               (List.filter (selected rangeStart rangeEnd) files))
  end.

(** ** The HTTP side *)

Record Opts : Type := {
  o_url : string;
  o_method : string;
  o_headers : list (string * string)
}.

Record Response : Type := {
  statusCode : Z;
  res_url : string
}.

(** One call into the [simple-get] transport. *)
Inductive HttpCall : Type :=
| GetConcat (opts : Opts)
| GetHead (u : string).

(** What a promise settles to. *)
Inductive Settled (A : Type) : Type :=
| Resolved (a : A)
| Rejected (e : JsError).
Arguments Resolved {A} a.
Arguments Rejected {A} e.

(** What [httpRequest] hands to its callback [cb]. *)
Inductive CbResult : Type :=
| CbError (err : JsError)
| CbData (data : Buffer).

Section Http.

(** [require('../package.json').version] *)
Variable VERSION : string.
(** [window.location.origin] where a [window] exists, i.e. in a browser *)
Variable window : option string.
(** The transport: what [get.concat] and [get.head] call back with. *)
Variable get_concat : Opts -> JsError + Response * Buffer.
Variable get_head : string -> JsError + Response.

Definition statusOk (res : Response) : bool :=
  negb ((statusCode res <? 200) || (300 <=? statusCode res)).

Definition unexpectedStatus (res : Response) : JsError :=
  Error_ ("Unexpected HTTP status code " +:+ show_num (statusCode res)).

Definition _redirectRequest (opts : Opts) (originalError : JsError)
  : list HttpCall * Settled (Response * Buffer) :=
  match get_head (o_url opts) with
  | inl errHead => ([GetHead (o_url opts)], Rejected errHead)
  | inr res =>
      if negb (statusOk res) then
        ([GetHead (o_url opts)], Rejected (unexpectedStatus res))
      else if String.eqb (res_url res) (o_url opts) then
        ([GetHead (o_url opts)], Rejected originalError)
      else
        let opts' := {| o_url := res_url res; o_method := o_method opts;
                        o_headers := o_headers opts |} in
        ([GetHead (o_url opts); GetConcat opts'],
         match get_concat opts' with
         | inl err => Rejected err
         | inr (res', data) => Resolved (res', data)
         end)
  end.

Definition request_opts (request : Request) : Opts :=
  {| o_url := r_url request;
     o_method := "GET";
     o_headers :=
       [("user-agent", "WebTorrent/" +:+ VERSION +:+ " (https://webtorrent.io)");
        ("range", "bytes=" +:+ show_num (r_start request) +:+ "-"
                   +:+ show_num (r_end request))] |}.

(** The [.then] step of [_makeRequest]. *)
Definition checkStatus (s : Settled (Response * Buffer)) : Settled Buffer :=
  match s with
  | Rejected e => Rejected e
  | Resolved (res, data) =>
      if statusOk res then Resolved data else Rejected (unexpectedStatus res)
  end.

Definition _makeRequest (request : Request) : list HttpCall * Settled Buffer :=
  let opts := request_opts request in
  match get_concat opts with
  | inl err =>
      let inBroswer := bool_decide (is_Some window) in
      let sameOrigin :=
        match window with
        | Some origin => String.prefix (origin +:+ "/") (r_url request)
        | None => false
        end in
      if negb inBroswer || sameOrigin then
        ([GetConcat opts], Rejected err)
      else
        let (calls, s) := _redirectRequest opts err in
        (GetConcat opts :: calls, checkStatus s)
  | inr (res, data) => ([GetConcat opts], checkStatus (Resolved (res, data)))
  end.

(** [Promise.all]: the bodies in the order of the promises when all
    resolve.  When several reject, the one that settles first wins; the
    model takes the first in list order. *)
Fixpoint Promise_all (l : list (Settled Buffer)) : Settled (list Buffer) :=
  match l with
  | [] => Resolved []
  | Rejected e :: _ => Rejected e
  | Resolved b :: l' =>
      match Promise_all l' with
      | Resolved bs => Resolved (b :: bs)
      | Rejected e => Rejected e
      end
  end.

(** [httpRequest]: the transport calls it causes (those of one
    sub-request kept together, sub-requests in list order) and what the
    callback receives. *)
Definition httpRequest (wc : t) (pieceIndex offset length : Z)
  : Completion (list HttpCall * CbResult) :=
  ret! requests <- _buildRequests wc pieceIndex offset length;
  if (List.length requests <? 1)%nat then
    Normal ([], CbError (Error_
      "Could not find file corresponding to web seed range request"))
  else
    let requestPromises := map _makeRequest requests in
    Normal
      (concat (map fst requestPromises),
       match Promise_all (map snd requestPromises) with
       | Resolved buffers =>
           match buffers with
           | [b] => CbData b
           | _ => CbData (Buffer_concat buffers length)
           end
       | Rejected e => CbError e
       end).

End Http.

End WebConn.

(** ** lib/server.js *)

Module Server.

Definition DLNA_ORG_FLAG : string := "01700000000000000000000000000000".
Definition DLNA_HEADER : string :=
  "DLNA.ORG_OP=01;DLNA.ORG_CI=0;DLNA.ORG_FLAGS=" +:+ DLNA_ORG_FLAG.

(** The value of [Number(s)]: not a number, an infinity, or a finite
    number (every finite double is a rational). *)
Inductive JsNumber : Type :=
| NaN
| PosInfinity
| NegInfinity
| Finite (q : Q).

Definition Number_isNaN (n : JsNumber) : bool :=
  match n with NaN => true | _ => false end.

(** [n >= len] for an array length [len] *)
Definition geLength (n : JsNumber) (len : nat) : bool :=
  match n with
  | NaN => false
  | PosInfinity => true
  | NegInfinity => false
  | Finite q => Qle_bool (inject_Z (Z.of_nat len)) q
  end.

(** [arr[n]]: an element when [n] is a whole number that is an index of
    [arr], and [undefined] for every other key. *)
Definition elementAt {A} (arr : list A) (n : JsNumber) : option A :=
  match n with
  | Finite q =>
      let r := Qred q in
      if (Qden r =? 1)%positive && (0 <=? Qnum r) then arr !! Z.to_nat (Qnum r)
      else None
  | _ => None
  end.

Record Range : Type := { start : Z; end_ : Z }.

(** What [rangeParser] returns: an array of ranges or an error code. *)
Inductive RangeResult : Type :=
| RangeArray (ranges : list Range)
| RangeError (code : Z).

Record IncomingMessage : Type := {
  method : string;
  req_url : string;
  (** request headers, keyed by lower-cased name *)
  headers : gmap string string
}.

(** How far the response has come: still open, ended with a body, or fed
    from [file.createReadStream(range)] through [pump]. *)
Inductive Body : Type :=
| Open
| Ended (data : string)
| Pumped (file : File) (range : option Range).

Record ServerResponse : Type := {
  statusCode : Z;
  resHeaders : gmap string string;
  body : Body
}.

Definition freshResponse : ServerResponse :=
  {| statusCode := 200; resHeaders := ∅; body := Open |}.

Definition setHeader (res : ServerResponse) (k v : string) : ServerResponse :=
  {| statusCode := statusCode res; resHeaders := <[k := v]> (resHeaders res);
     body := body res |}.

Definition setStatus (res : ServerResponse) (code : Z) : ServerResponse :=
  {| statusCode := code; resHeaders := resHeaders res; body := body res |}.

Definition end_with (res : ServerResponse) (data : string) : ServerResponse :=
  {| statusCode := statusCode res; resHeaders := resHeaders res;
     body := Ended data |}.

Definition pump (res : ServerResponse) (file : File) (range : option Range)
  : ServerResponse :=
  {| statusCode := statusCode res; resHeaders := resHeaders res;
     body := Pumped file range |}.

(** A string is truthy when it is not empty. *)
Definition truthy (o : option string) : option string :=
  match o with
  | Some "" => None
  | _ => o
  end.

(** [pathname.slice(1)] *)
Definition slice1 (s : string) : string :=
  match s with
  | EmptyString => ""
  | String _ rest => rest
  end.

Definition Socket := nat.

(** A request parked until the torrent is ready: the [onReady] closure of
    [onRequest] with what it captured. *)
Record Pending : Type := {
  p_req : IncomingMessage;
  p_res : ServerResponse;
  p_pathname : option string
}.

Record t : Type := {
  _torrent : option Torrent;
  _sockets : list Socket;
  _pendingReady : list Pending;
  _closed : bool
}.

Definition constructor (torrent : Torrent) : t :=
  {| _torrent := Some torrent; _sockets := []; _pendingReady := [];
     _closed := false |}.

(** What the server does to the world outside its own fields. *)
Inductive Effect : Type :=
| SocketSetTimeout (s : Socket) (ms : Z)
| SocketDestroy (s : Socket)
| NextTick (cb : Callback)
| HttpServerClose (cb : Callback).

Section Handlers.

(** [url.parse(u).pathname], a string or [null] *)
Variable url_pathname : string -> option string.
(** [Number(s)] *)
Variable toNumber : string -> JsNumber.
(** [mime.lookup(name)] *)
Variable mime_lookup : string -> string.
(** [rangeParser(size, header)] of the [range-parser] package *)
Variable rangeParser : Z -> string -> RangeResult.

(** the double-quote character of the generated HTML *)
Definition dquote : string := String (ascii_of_nat 34) EmptyString.

Definition listHtml (fs : list File) : string :=
  String.concat "<br>"
    (imap (fun i file =>
             let link := "<a download=" +:+ dquote +:+ f_name file +:+ dquote
                           +:+ " href=" +:+ dquote +:+ "/"
                           +:+ show_num (Z.of_nat i) +:+ dquote +:+ ">"
                           +:+ f_path file +:+ "</a>" in
             "<li>" +:+ link +:+ " (" +:+ show_num (f_length file)
               +:+ " bytes)</li>")
          fs).

(** [onReady (req, res, pathname)]: the response object as the handler
    leaves it, and whether the handler returned or threw. *)
Definition onReady (srv : t) (req : IncomingMessage) (res : ServerResponse)
    (pathname : option string) : ServerResponse * Completion unit :=
  if bool_decide (pathname = Some "/") then
    let res := setHeader res "Content-Type" "text/html" in
    match _torrent srv with
    | None => (res, Throw (TypeError "Cannot read property 'files' of null"))
    | Some torrent =>
        let html := "<h1>" +:+ t_name torrent +:+ "</h1><ol>"
                      +:+ listHtml (files torrent) +:+ "</ol>" in
        (end_with res html, Normal ())
    end
  else
  match pathname with
  | None => (res, Throw (TypeError "Cannot read property 'slice' of null"))
  | Some pathname =>
  let index := toNumber (slice1 pathname) in
  let notFound := (end_with (setStatus res 404) "404 Not Found", Normal ()) in
  if Number_isNaN index then notFound
  else
  match _torrent srv with
  | None => (res, Throw (TypeError "Cannot read property 'files' of null"))
  | Some torrent =>
  if geLength index (List.length (files torrent)) then notFound
  else
  let file := elementAt (files torrent) index in
  let res := setHeader res "Accept-Ranges" "bytes" in
  match file with
  | None => (res, Throw (TypeError "Cannot read property 'name' of undefined"))
  | Some file =>
  let res := setHeader res "Content-Type" (mime_lookup (f_name file)) in
  let res := setStatus res 200 in
  let res := setHeader res "transferMode.dlna.org" "Streaming" in
  let res := setHeader res "contentFeatures.dlna.org" DLNA_HEADER in
  let range :=
    rangeParser (f_length file)
      (default EmptyString (truthy (headers req !! "range"))) in
  let finish (res : ServerResponse) (range : option Range) :=
    if String.eqb (method req) "HEAD" then (end_with res EmptyString, Normal ())
    else (pump res file range, Normal ()) in
  match range with
  | RangeArray ranges =>
      let res := setStatus res 206 in
      match ranges with
      | [] => (res, Throw (TypeError "Cannot read property 'start' of undefined"))
      | range :: _ =>
          let res := setHeader res "Content-Range"
                       ("bytes " +:+ show_num (start range) +:+ "-"
                          +:+ show_num (end_ range) +:+ "/"
                          +:+ show_num (f_length file)) in
          let res := setHeader res "Content-Length"
                       (show_num (end_ range - start range + 1)) in
          finish res (Some range)
      end
  | RangeError _ =>
      let res := setHeader res "Content-Length" (show_num (f_length file)) in
      finish res None
  end
  end
  end
  end.

Definition onRequest (srv : t) (req : IncomingMessage) (res : ServerResponse)
  : t * ServerResponse * Completion unit :=
  let accessControlHeaders :=
    truthy (headers req !! "access-control-request-headers") in
  match (if String.eqb (method req) "OPTIONS" then accessControlHeaders else None) with
  | Some h =>
      let res := setHeader res "Access-Control-Allow-Methods" "POST, GET, OPTIONS" in
      let res := setHeader res "Access-Control-Allow-Headers" h in
      let res := setHeader res "Access-Control-Max-Age" "1728000" in
      (srv, end_with res "", Normal ())
  | None =>
      let res :=
        match truthy (headers req !! "origin") with
        | Some o => setHeader res "Access-Control-Allow-Origin" o
        | None => res
        end in
      let pathname := url_pathname (req_url req) in
      if bool_decide (pathname = Some "/favicon.ico") then
        (srv, end_with res "", Normal ())
      else
        match _torrent srv with
        | None => (srv, res, Throw (TypeError "Cannot read property 'ready' of null"))
        | Some torrent =>
            if ready torrent then
              let (res, c) := onReady srv req res pathname in (srv, res, c)
            else
              ({| _torrent := _torrent srv; _sockets := _sockets srv;
                  _pendingReady :=
                    _pendingReady srv ++
                      [{| p_req := req; p_res := res; p_pathname := pathname |}];
                  _closed := _closed srv |},
               res, Normal ())
        end
  end.

(** The [onReady] closure [onRequest] parks, run by the torrent's
    ['ready'] event: it takes itself out of [_pendingReady] and answers.
    [i] is what [this._pendingReady.indexOf(onReady)] finds for this
    closure, and [p] what the closure captured. *)
Definition parkedOnReady (srv : t) (i : Z) (p : Pending)
  : t * ServerResponse * Completion unit :=
  let srv' := {| _torrent := _torrent srv; _sockets := _sockets srv;
                 _pendingReady := arrayRemove (_pendingReady srv) i;
                 _closed := _closed srv |} in
  let (res, c) := onReady srv' (p_req p) (p_res p) (p_pathname p) in
  (srv', res, c).

End Handlers.

(** [onConnection (socket)] *)
Definition onConnection (srv : t) (socket : Socket) : t * list Effect :=
  ({| _torrent := _torrent srv; _sockets := _sockets srv ++ [socket];
      _pendingReady := _pendingReady srv; _closed := _closed srv |},
   [SocketSetTimeout socket 36000000]).

(** The [once('close')] listener [onConnection] puts on a socket. *)
Definition socketClosed (srv : t) (socket : Socket) : t :=
  {| _torrent := _torrent srv;
     _sockets := arrayRemove (_sockets srv) (indexOf (_sockets srv) socket);
     _pendingReady := _pendingReady srv; _closed := _closed srv |}.

(** The ['close'] events of a list of sockets, one after the other. *)
Definition socketsClosed (srv : t) (sockets : list Socket) : t :=
  fold_left socketClosed sockets srv.

(** [close (cb)].  The two [removeListener] calls name the methods, not
    the arrow functions the constructor registered, and remove nothing.
    The loop empties [_pendingReady], detaching each entry from the
    torrent. *)
Definition close (srv : t) (cb : Callback) : t * list Effect * Completion unit :=
  match _pendingReady srv, _torrent srv with
  | _ :: _, None =>
      ({| _torrent := _torrent srv; _sockets := _sockets srv;
          _pendingReady := removelast (_pendingReady srv); _closed := true |},
       [], Throw (TypeError "Cannot read property 'removeListener' of null"))
  | _, _ =>
      ({| _torrent := None; _sockets := _sockets srv; _pendingReady := [];
          _closed := true |},
       [HttpServerClose cb], Normal ())
  end.

(** [destroy (cb)] *)
Definition destroy (srv : t) (cb : option Callback)
  : t * list Effect * Completion unit :=
  let destroyed := map SocketDestroy (_sockets srv) in
  let cb := default EmptyFn cb in
  if _closed srv then (srv, destroyed ++ [NextTick cb], Normal ())
  else
    let '(srv', effs, c) := close srv cb in
    (srv', destroyed ++ effs, c).

(** The callbacks a list of effects has queued for the next tick. *)
Definition queuedForNextTick (effs : list Effect) : list Callback :=
  omap (fun e => match e with NextTick cb => Some cb | _ => None end) effs.

End Server.

(** ** lib/tcp-pool.js *)

Module TCPPool.

Record Conn : Type := {
  c_id : nat;
  (** [undefined] when the socket closed before ['connection'] fired *)
  remoteAddress : option string
}.

Record Peer : Type := {
  id : string;
  conn : Conn
}.

#[export] Instance Conn_eq_dec : EqDecision Conn.
Proof. solve_decision. Defined.

(** Modelled from the spec: the client, [client.get] and
    [torrent._addIncomingPeer] are not under lib/.  The registry is
    [lookup(infoHash) -> Swarm|absent]; a swarm is known here by the list
    of peers it has accepted, and [_addIncomingPeer(peer)] accepts a routed
    connection into that list. *)
Record Client : Type := {
  torrents : gmap string (list Peer)
}.

Definition Client_get (client : Client) (infoHash : string) : option (list Peer) :=
  torrents client !! infoHash.

Definition _addIncomingPeer (client : Client) (infoHash : string) (peer : Peer)
  : Client :=
  {| torrents := alter (fun peers => peers ++ [peer]) infoHash (torrents client) |}.

(** The [net.Server] behind the pool: whether it is still running. *)
Record NetServer : Type := {
  running : bool
}.

Record t : Type := {
  server : option NetServer;
  _client : option Client;
  _pendingConns : option (list Conn)
}.

(** What the pool does to sockets, peers, the server and the event loop. *)
Inductive Effect : Type :=
| ServerRemoveListener (event : string)
| ConnOnError (c : Conn)
| ConnDestroy (c : Conn)
| ServerClose (cb : option Callback)
| NextTick (cb : Callback)
| PeerOnHandshake (peer : Peer) (infoHash peerId : string)
| PeerDestroy (peer : Peer) (err : JsError).

Section Pool.

(** Whether [net.Server.close] throws on a server that is not running,
    as old Node releases do, or reports it through the callback. *)
Variable closeThrowsWhenNotRunning : bool.

Definition server_close (srv : NetServer) (cb : option Callback)
  : list Effect * Completion unit :=
  if negb (running srv) && closeThrowsWhenNotRunning
  then ([], Throw (Error_ "Not running"))
  else ([ServerClose cb], Normal ()).

(** [destroy (cb)] *)
Definition destroy (pool : t) (cb : option Callback)
  : t * list Effect * Completion unit :=
  match server pool with
  | None =>
      (pool, [], Throw (TypeError "Cannot read property 'removeListener' of null"))
  | Some srv =>
      let detach := [ServerRemoveListener "connection";
                     ServerRemoveListener "listening";
                     ServerRemoveListener "error"] in
      match _pendingConns pool with
      | None =>
          (pool, detach, Throw (TypeError "Cannot read property 'forEach' of null"))
      | Some conns =>
          let drop := flat_map (fun c => [ConnOnError c; ConnDestroy c]) conns in
          let closing :=
            match server_close srv cb with
            | (effs, Normal _) => effs
            | (effs, Throw _) =>
                effs ++ match cb with Some f => [NextTick f] | None => [] end
            end in
          ({| server := None; _client := None; _pendingConns := None |},
           detach ++ drop ++ closing, Normal ())
      end
  end.

End Pool.

(** [_cleanupPending (conn)] *)
Definition _cleanupPending (pool : t) (c : Conn) : t :=
  match _pendingConns pool with
  | Some conns =>
      {| server := server pool; _client := _client pool;
         _pendingConns := Some (arrayRemove conns (indexOf conns c)) |}
  | None => pool
  end.

Definition unexpectedInfoHash (infoHash : string) (peer : Peer) : JsError :=
  Error_ ("Unexpected info hash " +:+ infoHash +:+ " from incoming peer "
            +:+ id peer).

(** [_onHandshake (peer, infoHash, peerId)] *)
Definition _onHandshake (pool : t) (peer : Peer) (infoHash peerId : string)
  : t * list Effect * Completion unit :=
  match _client pool with
  | None => (pool, [], Throw (TypeError "Cannot read property 'get' of null"))
  | Some client =>
      match Client_get client infoHash with
      | Some _ =>
          ({| server := server pool;
              _client := Some (_addIncomingPeer client infoHash peer);
              _pendingConns := _pendingConns pool |},
           [PeerOnHandshake peer infoHash peerId], Normal ())
      | None =>
          (pool, [PeerDestroy peer (unexpectedInfoHash infoHash peer)], Normal ())
      end
  end.

(** [_onConnection (conn)]: the pool afterwards, what it did, and the peer
    whose handshake and close listeners are now armed, if any.
    [createTCPIncomingPeer] is [Peer.createTCPIncomingPeer]. *)
Definition _onConnection (createTCPIncomingPeer : Conn -> Peer) (pool : t) (c : Conn)
  : t * list Effect * Completion (option Peer) :=
  match remoteAddress c with
  | None => (pool, [ConnOnError c; ConnDestroy c], Normal None)
  | Some _ =>
      match _pendingConns pool with
      | None => (pool, [], Throw (TypeError "Cannot read property 'push' of null"))
      | Some conns =>
          ({| server := server pool; _client := _client pool;
              _pendingConns := Some (conns ++ [c]) |},
           [], Normal (Some (createTCPIncomingPeer c)))
      end
  end.

(** The [onHandshake] closure of [_onConnection]: clean up, then route. *)
Definition onHandshake (pool : t) (c : Conn) (peer : Peer) (infoHash peerId : string)
  : t * list Effect * Completion unit :=
  _onHandshake (_cleanupPending pool c) peer infoHash peerId.

(** The swarms, if any, whose peer list holds [peer]. *)
Definition inSomeSwarm (pool : t) (peer : Peer) : Prop :=
  exists client infoHash peers,
    _client pool = Some client /\
    torrents client !! infoHash = Some peers /\
    peer ∈ peers.

End TCPPool.

(** * Vocabulary of the specification *)

(** A file's extent [[offset, offset + length)] and the inclusive byte
    range [[rangeStart, rangeEnd]] share a byte. *)
Definition intersects (file : File) (rangeStart rangeEnd : Z) : Prop :=
  exists x, f_offset file <= x < f_offset file + f_length file /\
            rangeStart <= x <= rangeEnd.

(** The file list of the data model: contiguous from offset [o], no file
    of negative length. *)
Fixpoint contiguousFrom (o : Z) (fs : list File) : bool :=
  match fs with
  | [] => true
  | f :: fs' =>
      (f_offset f =? o) && (0 <=? f_length f) &&
      contiguousFrom (o + f_length f) fs'
  end.

(** Ascending file offsets. *)
Fixpoint ascendingOffsets (fs : list File) : bool :=
  match fs with
  | [] => true
  | f :: fs' =>
      forallb (fun g => f_offset f <=? f_offset g) fs' && ascendingOffsets fs'
  end.

(** The transport calls that are GETs addressed to [u]. *)
Definition getsTo (u : string) (calls : list WebConn.HttpCall)
  : list WebConn.HttpCall :=
  List.filter (fun c => match c with
                        | WebConn.GetConcat o => String.eqb (WebConn.o_url o) u
                        | WebConn.GetHead _ => false
                        end) calls.

(** A sub-request [rq] addresses [file] of the seed [wc]. *)
Definition requestFor (wc : WebConn.t) (file : File) (rq : WebConn.Request) : Prop :=
  WebConn.r_url rq
  = WebConn.url wc +:+ WebConn.delimiter (WebConn.url wc) +:+ f_path file.

(** The error [httpRequest] reports when it has no sub-request to make. *)
Definition noFileError : JsError :=
  Error_ "Could not find file corresponding to web seed range request".


(** An effect of the content server that closes the listening socket. *)
Definition closesListener (e : Server.Effect) : bool :=
  match e with
  | Server.HttpServerClose _ => true
  | _ => false
  end.

(** * Concrete swarms and transports the results below are run on *)

Definition plainFile (name : string) (length offset : Z) : File :=
  {| f_name := name; f_path := "album/" +:+ name;
     f_length := length; f_offset := offset |}.

(** Three files laid end to end: bytes 0-99, 100-149 and 150-249. *)
Definition threeFiles : Torrent :=
  {| t_name := "album"; ready := true; pieceLength := 250;
     pieces := ["6b86b273"];
     files := [plainFile "a.flac" 100 0; plainFile "b.flac" 50 100;
               plainFile "c.flac" 100 150] |}.

(** Two files laid end to end: bytes 0-3 and 4-7. *)
Definition twoFiles : Torrent :=
  {| t_name := "album"; ready := true; pieceLength := 8;
     pieces := ["6b86b273"];
     files := [plainFile "a.flac" 4 0; plainFile "b.flac" 4 4] |}.

(** One file of 100 bytes, in pieces of 100 bytes. *)
Definition oneFile : Torrent :=
  {| t_name := "a.flac"; ready := true; pieceLength := 100;
     pieces := ["6b86b273"];
     files := [plainFile "a.flac" 100 0] |}.

(** A swarm of three pieces. *)
Definition threePieces : Torrent :=
  {| t_name := "a.flac"; ready := true; pieceLength := 100;
     pieces := ["6b86b273"; "d4735e3a"; "4e074085"];
     files := [plainFile "a.flac" 300 0] |}.

Definition seedOf (torrent : Torrent) : WebConn.t :=
  WebConn.constructor (fun u => "sha1:" +:+ u) "http://seed.example/pub" torrent.

(** A transport on which every call fails. *)
Definition deadGet (_ : WebConn.Opts)
  : JsError + WebConn.Response * WebConn.Buffer :=
  inl (Error_ "ECONNREFUSED").
Definition deadHead (_ : string) : JsError + WebConn.Response :=
  inl (Error_ "ECONNREFUSED").

(** A server that ignores [Range] and answers every GET with status 200
    and the same three bytes. *)
Definition wholeFileGet (o : WebConn.Opts)
  : JsError + WebConn.Response * WebConn.Buffer :=
  inr ({| WebConn.statusCode := 200; WebConn.res_url := WebConn.o_url o |},
       [Byte.x01; Byte.x02; Byte.x03]).

(** The 256 KiB-piece swarm of the specification's example. *)
Definition bigPieces : Torrent :=
  {| t_name := "a.flac"; ready := true; pieceLength := 262144;
     pieces := ["6b86b273"; "d4735e3a"; "4e074085"];
     files := [plainFile "a.flac" 786432 0] |}.

(** The values of [Number] on the path components the examples use. *)
Definition sampleNumber (s : string) : Server.JsNumber :=
  if String.eqb s "0" then Server.Finite (0 # 1)
  else if String.eqb s "99" then Server.Finite (99 # 1)
  else if String.eqb s "-1" then Server.Finite (-1 # 1)
  else if String.eqb s "0.5" then Server.Finite (1 # 2)
  else Server.NaN.

(** The values of [rangeParser] on the headers the examples use, for a
    file of at least 300 bytes. *)
Definition sampleRangeParser (size : Z) (str : string) : Server.RangeResult :=
  if String.eqb str "bytes=0-99" then
    Server.RangeArray [{| Server.start := 0; Server.end_ := 99 |}]
  else if String.eqb str "bytes=0-99,200-299" then
    Server.RangeArray [{| Server.start := 0; Server.end_ := 99 |};
                       {| Server.start := 200; Server.end_ := 299 |}]
  else if String.eqb str "bytes=5000-" then Server.RangeError (-1)
  else Server.RangeError (-2).

Definition samplePathname (u : string) : option string := Some u.
Definition sampleMime (name : string) : string := "audio/flac".

(** A swarm of three files of 1000 bytes each. *)
Definition threeThousand : Torrent :=
  {| t_name := "album"; ready := true; pieceLength := 1000;
     pieces := ["6b86b273"; "d4735e3a"; "4e074085"];
     files := [plainFile "a.flac" 1000 0; plainFile "b.flac" 1000 1000;
               plainFile "c.flac" 1000 2000] |}.

Definition request (m u : string) (hs : list (string * string))
  : Server.IncomingMessage :=
  {| Server.method := m; Server.req_url := u; Server.headers := list_to_map hs |}.

(** A pool that listens, serves one swarm and holds one pending
    connection. *)
Definition aConn : TCPPool.Conn :=
  {| TCPPool.c_id := 7; TCPPool.remoteAddress := Some "203.0.113.9" |}.
Definition aPeer : TCPPool.Peer :=
  {| TCPPool.id := "203.0.113.9:51413"; TCPPool.conn := aConn |}.
Definition aPool : TCPPool.t :=
  {| TCPPool.server := Some {| TCPPool.running := true |};
     TCPPool._client := Some {| TCPPool.torrents := {[ "c0ffee" := [] ]} |};
     TCPPool._pendingConns := Some [aConn] |}.

(** A second connection, not pending in [aPool], and the peer made for a
    connection. *)
Definition bConn : TCPPool.Conn :=
  {| TCPPool.c_id := 8; TCPPool.remoteAddress := Some "198.51.100.4" |}.
Definition peerOf (c : TCPPool.Conn) : TCPPool.Peer :=
  {| TCPPool.id := default "closed" (TCPPool.remoteAddress c); TCPPool.conn := c |}.

(** A transport that answers every GET with status 404 and no body. *)
Definition notFoundGet (o : WebConn.Opts)
  : JsError + WebConn.Response * WebConn.Buffer :=
  inr ({| WebConn.statusCode := 404; WebConn.res_url := WebConn.o_url o |}, []).

(** A content server with two tracked sockets, and one whose torrent is
    not ready yet. *)
Definition liveServer : Server.t :=
  {| Server._torrent := Some threeThousand; Server._sockets := [3%nat; 4%nat];
     Server._pendingReady := []; Server._closed := false |}.
Definition notReady : Torrent :=
  {| t_name := "album"; ready := false; pieceLength := 1000;
     pieces := ["6b86b273"; "d4735e3a"; "4e074085"];
     files := [plainFile "a.flac" 1000 0; plainFile "b.flac" 1000 1000;
               plainFile "c.flac" 1000 2000] |}.
Definition waitingServer : Server.t := Server.constructor notReady.

(** * Two statements of the specification, as it words them *)

(** A fetch whose range meets no file fails without any HTTP call,
    whatever the number of files. *)
Definition noFileFound_anyFileCount : Prop :=
  forall VERSION window get_concat get_head (wc : WebConn.t) (tor : Torrent)
         (pieceIndex offset length : Z),
    WebConn._torrent wc = Some tor ->
    contiguousFrom 0 (files tor) = true ->
    0 <= pieceIndex * pieceLength tor + offset ->
    1 <= length ->
    (forall file, In file (files tor) ->
       ~ intersects file (pieceIndex * pieceLength tor + offset)
                         (pieceIndex * pieceLength tor + offset + length - 1)) ->
    WebConn.httpRequest VERSION window get_concat get_head wc pieceIndex offset length
    = Normal ([], WebConn.CbError noFileError).

(** A fetch that succeeds with two or more sub-requests returns the plain
    concatenation of their bodies, and that has [length] bytes. *)
Definition plainConcatenation : Prop :=
  forall VERSION window get_concat get_head (wc : WebConn.t)
         (pieceIndex offset length : Z) requests bodies,
    WebConn._buildRequests wc pieceIndex offset length = Normal requests ->
    Forall2 (fun rq b =>
               snd (WebConn._makeRequest VERSION window get_concat get_head rq)
               = WebConn.Resolved b) requests bodies ->
    (2 <= List.length requests)%nat ->
    0 <= length ->
    exists calls,
      WebConn.httpRequest VERSION window get_concat get_head wc pieceIndex offset length
      = Normal (calls, WebConn.CbData (concat bodies)) /\
      Z.of_nat (List.length (concat bodies)) = length.

(** * The bitfield the web seed advertises *)

Section BitFieldFacts.

Import WebConn.

Lemma mask_pos (i : Z) : 0 < BitField.mask i.
Proof.
  unfold BitField.mask. rewrite Z.shiftr_div_pow2 by (apply Z.mod_pos_bound; lia).
  pose proof (Z.mod_pos_bound i 8 ltac:(lia)) as Hk.
  assert (Hc : i mod 8 = 0 \/ i mod 8 = 1 \/ i mod 8 = 2 \/ i mod 8 = 3 \/
               i mod 8 = 4 \/ i mod 8 = 5 \/ i mod 8 = 6 \/ i mod 8 = 7) by lia.
  destruct Hc as [-> | [-> | [-> | [-> | [-> | [-> | [-> | ->]]]]]]];
    reflexivity.
Qed.

Lemma set_length (b : BitField.t) (i : Z) :
  List.length (BitField.set b i) = List.length b.
Proof.
  unfold BitField.set. cbv zeta.
  destruct (b !! _); [apply length_insert | reflexivity].
Qed.

Lemma get_set_same (b : BitField.t) (i : Z) :
  (Z.to_nat (Z.shiftr i 3) < List.length b)%nat ->
  BitField.get (BitField.set b i) i = true.
Proof.
  intros Hlt. unfold BitField.get, BitField.set. cbv zeta.
  destruct (lookup_lt_is_Some_2 b _ Hlt) as [byte Hb]. rewrite Hb.
  rewrite list_lookup_insert_eq by exact Hlt.
  apply negb_true_iff, Z.eqb_neq. intros H0.
  rewrite Z.land_lor_distr_l, Z.land_diag in H0.
  apply Z.lor_eq_0_iff in H0 as [_ H0].
  pose proof (mask_pos i). lia.
Qed.

Lemma get_set_mono (b : BitField.t) (i k : Z) :
  BitField.get b k = true -> BitField.get (BitField.set b i) k = true.
Proof.
  unfold BitField.get, BitField.set. cbv zeta. intros Hk.
  destruct (b !! Z.to_nat (Z.shiftr i 3)) as [byte|] eqn:Hb; [|exact Hk].
  destruct (decide (Z.to_nat (Z.shiftr i 3) = Z.to_nat (Z.shiftr k 3))) as [E|E].
  - rewrite <- E in *. rewrite Hb in Hk.
    rewrite list_lookup_insert_eq by (eapply lookup_lt_Some; exact Hb).
    apply negb_true_iff, Z.eqb_neq in Hk.
    apply negb_true_iff, Z.eqb_neq. intros H0.
    rewrite Z.land_lor_distr_l in H0.
    apply Z.lor_eq_0_iff in H0 as [H0 _]. contradiction.
  - rewrite list_lookup_insert_ne by exact E. exact Hk.
Qed.

Lemma get_fold_mono (l : list Z) (b : BitField.t) (k : Z) :
  BitField.get b k = true -> BitField.get (fold_left BitField.set l b) k = true.
Proof.
  revert b. induction l as [|i l IH]; intros b Hk; simpl; [exact Hk|].
  apply IH, get_set_mono, Hk.
Qed.

Lemma fold_set_length (l : list Z) (b : BitField.t) :
  List.length (fold_left BitField.set l b) = List.length b.
Proof.
  revert b. induction l as [|i l IH]; intros b; simpl; [reflexivity|].
  rewrite IH. apply set_length.
Qed.

Lemma get_fold_elem (l : list Z) (b : BitField.t) (k : Z) :
  In k l -> (Z.to_nat (Z.shiftr k 3) < List.length b)%nat ->
  BitField.get (fold_left BitField.set l b) k = true.
Proof.
  revert b. induction l as [|i l IH]; intros b Hin Hlt; simpl; [destruct Hin|].
  destruct Hin as [-> | Hin].
  - apply get_fold_mono, get_set_same, Hlt.
  - apply IH; [exact Hin | rewrite set_length; exact Hlt].
Qed.

Lemma new_length (n : Z) :
  List.length (BitField.new n) = Z.to_nat (BitField.getByteSize n).
Proof. unfold BitField.new. apply length_replicate. Qed.

Lemma byte_in_range (n i : Z) :
  0 <= i < n -> (Z.to_nat (Z.shiftr i 3) < List.length (BitField.new n))%nat.
Proof.
  intros Hi. rewrite new_length. unfold BitField.getByteSize.
  rewrite !Z.shiftr_div_pow2 by lia. change (2 ^ 3) with 8.
  assert (0 <= i / 8) by (apply Z.div_pos; lia).
  assert (i / 8 <= n / 8) by (apply Z.div_le_mono; lia).
  destruct (n mod 8 =? 0) eqn:E; simpl.
  - apply Z.eqb_eq in E.
    assert (i / 8 < n / 8); [|lia].
    apply Z.div_lt_upper_bound; [lia|].
    pose proof (Z.div_mod n 8 ltac:(lia)). lia.
  - lia.
Qed.

(** Every piece of the swarm is advertised. *)
Lemma advertised_every_piece (numPieces i : Z) :
  0 <= i < numPieces -> BitField.get (advertised numPieces) i = true.
Proof.
  intros Hi. unfold advertised. apply get_fold_elem.
  - apply list_elem_of_In, elem_of_seqZ. lia.
  - apply byte_in_range, Hi.
Qed.

(** The loop's last round sets bit [numPieces] too whenever the last
    byte has a spare bit to hold it. *)
Lemma advertised_spare_bit (numPieces : Z) :
  0 <= numPieces -> numPieces mod 8 <> 0 ->
  BitField.get (advertised numPieces) numPieces = true.
Proof.
  intros Hn Hm. unfold advertised. apply get_fold_elem.
  - apply list_elem_of_In, elem_of_seqZ. lia.
  - rewrite new_length. unfold BitField.getByteSize.
    rewrite !Z.shiftr_div_pow2 by lia. change (2 ^ 3) with 8.
    assert (0 <= numPieces / 8) by (apply Z.div_pos; lia).
    destruct (numPieces mod 8 =? 0) eqn:E; simpl.
    + apply Z.eqb_eq in E. contradiction.
    + lia.
Qed.

End BitFieldFacts.

(** * The handshake of the web seed *)

Section HandshakeFacts.

Import WebConn.

(** While the bridge is alive and holds its torrent, a handshake is
    answered by a handshake carrying the seed's own peer id, then by a
    bitfield in which every piece of the swarm is set. *)
Lemma handshake_reply (wc : WebConn.t) (tor : Torrent) (infoHash peerId : string) :
  destroyed wc = false -> onceHandshake wc = true -> _torrent wc = Some tor ->
  exists bf,
    snd (emit_handshake wc infoHash peerId)
    = ([MsgHandshake infoHash (webPeerId wc); MsgBitfield bf], Normal ()) /\
    forall i, 0 <= i < Z.of_nat (List.length (pieces tor)) ->
              BitField.get bf i = true.
Proof.
  intros Hd Ho Ht. unfold emit_handshake, handshakeListener.
  rewrite Ho, Hd, Ht. cbn [snd app]. eexists. split; [reflexivity|].
  intros i Hi. apply advertised_every_piece, Hi.
Qed.

(** C2 (checked on a swarm of three pieces): the reply to a handshake is
    the seed's handshake followed by a bitfield, and in that bitfield bit
    3 is set although the pieces are 0, 1 and 2: the advertisement loop
    runs one index past the last piece. *)
Theorem C2_bit_past_last_piece :
  exists bf,
    snd (emit_handshake (seedOf threePieces) "c0ffee" "-WW0001-")
    = ([MsgHandshake "c0ffee" (webPeerId (seedOf threePieces)); MsgBitfield bf],
       Normal ()) /\
    Z.of_nat (List.length (pieces threePieces)) = 3 /\
    BitField.get bf 0 = true /\ BitField.get bf 1 = true /\
    BitField.get bf 2 = true /\ BitField.get bf 3 = true.
Proof.
  eexists. split; [reflexivity|]. repeat split; vm_compute; reflexivity.
Qed.

(** A destroyed bridge sends nothing in answer to a handshake. *)
Lemma handshake_ignored_when_destroyed (wc : WebConn.t) (infoHash peerId : string) :
  destroyed wc = true ->
  snd (emit_handshake wc infoHash peerId) = ([], Normal ()).
Proof.
  intros Hd. unfold emit_handshake, handshakeListener.
  destruct (onceHandshake wc); [rewrite Hd|]; reflexivity.
Qed.

(** C10: a handshake delivered after [destroy] is ignored: nothing is
    sent, neither a handshake nor a bitfield, and the listener returns
    without throwing. *)
Theorem C10_handshake_after_destroy (wc : WebConn.t) (infoHash peerId : string) :
  destroyed (destroy wc) = true /\
  snd (emit_handshake (destroy wc) infoHash peerId) = ([], Normal ()).
Proof.
  split; [reflexivity|]. apply handshake_ignored_when_destroyed. reflexivity.
Qed.

End HandshakeFacts.

(** * Sub-requests of a block fetch *)

Section BuildRequestsFacts.

Import WebConn.

Lemma buildRequests_single (wc : WebConn.t) (tor : Torrent) (pieceIndex offset length : Z) :
  _torrent wc = Some tor -> (List.length (files tor) <= 1)%nat ->
  _buildRequests wc pieceIndex offset length
  = Normal [ {| r_url := url wc; r_pieceIndex := pieceIndex; r_offset := offset;
                r_length := length; r_fileOffsetInRange := None;
                r_start := pieceIndex * pieceLength tor + offset;
                r_end := pieceIndex * pieceLength tor + offset + length - 1 |} ].
Proof.
  intros Ht Hn. unfold _buildRequests. rewrite Ht. cbv zeta.
  destruct (Nat.leb_spec (List.length (files tor)) 1); [reflexivity | lia].
Qed.

(** With two or more files the sub-requests are those of the selected
    files, one each, in the order of the file list. *)
Lemma buildRequests_multi (wc : WebConn.t) (tor : Torrent) (pieceIndex offset length : Z) :
  _torrent wc = Some tor -> (2 <= List.length (files tor))%nat ->
  exists requests,
    _buildRequests wc pieceIndex offset length = Normal requests /\
    Forall2 (fun file rq =>
               requestFor wc file rq /\
               r_start rq = Z.max (pieceIndex * pieceLength tor + offset - f_offset file) 0 /\
               r_end rq = Z.min (f_offset file + f_length file - 1)
                                (pieceIndex * pieceLength tor + offset + length - 1
                                 - f_offset file))
            (List.filter (selected (pieceIndex * pieceLength tor + offset)
                                   (pieceIndex * pieceLength tor + offset + length - 1))
                         (files tor))
            requests.
Proof.
  intros Ht Hn. unfold _buildRequests. rewrite Ht. cbv zeta.
  destruct (Nat.leb_spec (List.length (files tor)) 1); [lia|].
  eexists. split; [reflexivity|].
  induction (List.filter _ (files tor)) as [|file fs IH]; simpl; constructor.
  - unfold requestFor. simpl. auto.
  - exact IH.
Qed.

(** The filter of the multi-file branch is the intersection test, for a
    file that holds at least one byte and a range that does. *)
Lemma selected_iff_intersects (file : File) (rangeStart rangeEnd : Z) :
  0 < f_length file -> rangeStart <= rangeEnd ->
  selected rangeStart rangeEnd file = true <-> intersects file rangeStart rangeEnd.
Proof.
  intros Hl Hr. unfold selected, intersects.
  rewrite andb_true_iff, Z.leb_le, Z.ltb_lt. split.
  - intros [H1 H2]. exists (Z.max (f_offset file) rangeStart). lia.
  - intros (x & Hx1 & Hx2). lia.
Qed.

(** In a contiguous file list a selected file, even an empty one, comes
    with a file that holds the first byte of the range. *)
Lemma selected_some_intersects (fs : list File) (o rangeStart rangeEnd : Z) (file : File) :
  contiguousFrom o fs = true -> o <= rangeStart <= rangeEnd ->
  In file fs -> selected rangeStart rangeEnd file = true ->
  exists g, In g fs /\ intersects g rangeStart rangeEnd.
Proof.
  revert o. induction fs as [|f fs IH]; intros o Hc Ho Hin Hsel; [destruct Hin|].
  simpl in Hc. apply andb_true_iff in Hc as [Hc Hrest].
  apply andb_true_iff in Hc as [Hoff Hlen].
  apply Z.eqb_eq in Hoff. apply Z.leb_le in Hlen.
  destruct (Z_lt_le_dec rangeStart (o + f_length f)) as [Hlt | Hge].
  - exists f. split; [left; reflexivity|]. exists rangeStart. lia.
  - destruct Hin as [-> | Hin].
    + unfold selected in Hsel. apply andb_true_iff in Hsel as [_ Hsel].
      apply Z.ltb_lt in Hsel. lia.
    + destruct (IH (o + f_length f) Hrest ltac:(lia) Hin Hsel) as (g & Hg & Hi).
      exists g. split; [right; exact Hg | exact Hi].
Qed.

(** The end the code computes is the end in the file's own coordinates
    exactly when the file starts the torrent or the range ends inside
    the file. *)
Lemma subrequest_end_agrees (file : File) (rangeEnd : Z) :
  0 <= f_offset file ->
  Z.min (f_offset file + f_length file - 1) (rangeEnd - f_offset file)
  = Z.min (f_length file - 1) (rangeEnd - f_offset file)
  <-> f_offset file = 0 \/ rangeEnd - f_offset file <= f_length file - 1.
Proof. lia. Qed.

(** C1 (checked on three files of 100, 50 and 100 bytes and the block at
    bytes 120-219): the two files the range meets are selected and the
    sub-requests start at the right byte of each, but the sub-request for
    the middle file, which holds 50 bytes, ends at byte 119 instead of
    min (50 - 1, 219 - 100) = 49: the code takes the minimum with the
    file's last byte counted from the start of the torrent. *)
Theorem C1_subrequest_end_past_file :
  let fileB := plainFile "b.flac" 50 100 in
  let fileC := plainFile "c.flac" 100 150 in
  exists rqB rqC,
    _buildRequests (seedOf threeFiles) 0 120 100 = Normal [rqB; rqC] /\
    requestFor (seedOf threeFiles) fileB rqB /\
    requestFor (seedOf threeFiles) fileC rqC /\
    r_start rqB = Z.max (120 - f_offset fileB) 0 /\
    r_start rqC = Z.max (120 - f_offset fileC) 0 /\
    r_end rqC = Z.min (f_length fileC - 1) (219 - f_offset fileC) /\
    r_end rqB = 119 /\
    Z.min (f_length fileB - 1) (219 - f_offset fileB) = 49.
Proof.
  do 2 eexists. split; [reflexivity|]. repeat split.
Qed.

End BuildRequestsFacts.

(** * Fetching a block over HTTP *)

Section HttpFacts.

Import WebConn.

Variable VERSION : string.
Variable window : option string.
Variable get_concat : Opts -> JsError + Response * Buffer.
Variable get_head : string -> JsError + Response.

Local Abbreviation makeRequest := (_makeRequest VERSION window get_concat get_head).
Local Abbreviation fetch := (httpRequest VERSION window get_concat get_head).

(** Whatever the transport answers, one sub-request sends exactly one
    GET to its own URL; a retry after a redirect goes elsewhere. *)
Lemma makeRequest_getsTo (rq : Request) :
  getsTo (r_url rq) (fst (makeRequest rq)) = [GetConcat (request_opts VERSION rq)].
Proof.
  unfold _makeRequest, getsTo. cbv zeta.
  destruct (get_concat (request_opts VERSION rq)) as [err | [res data]];
    [|simpl; rewrite String.eqb_refl; reflexivity].
  destruct (negb (bool_decide (is_Some window)) || _);
    [simpl; rewrite String.eqb_refl; reflexivity|].
  unfold _redirectRequest.
  destruct (get_head _) as [errHead | res];
    [simpl; rewrite String.eqb_refl; reflexivity|].
  destruct (negb (statusOk res));
    [simpl; rewrite String.eqb_refl; reflexivity|].
  destruct (String.eqb (res_url res) _) eqn:E;
    simpl; rewrite String.eqb_refl; [reflexivity|].
  simpl in E. rewrite E. reflexivity.
Qed.

(** Outside a browser a sub-request is one transport call. *)
Lemma makeRequest_node (rq : Request) :
  window = None -> fst (makeRequest rq) = [GetConcat (request_opts VERSION rq)].
Proof.
  intros ->. unfold _makeRequest. cbv zeta.
  destruct (get_concat _) as [err | [res data]]; reflexivity.
Qed.

Lemma Promise_all_resolved (requests : list Request) (bodies : list Buffer) :
  Forall2 (fun rq b => snd (makeRequest rq) = Resolved b) requests bodies ->
  Promise_all (map snd (map makeRequest requests)) = Resolved bodies.
Proof.
  induction 1 as [|rq b requests bodies Hb _ IH]; simpl; [reflexivity|].
  rewrite Hb, IH. reflexivity.
Qed.

Lemma filter_sublist {A} (p : A -> bool) (l : list A) : List.filter p l `sublist_of` l.
Proof.
  induction l as [|x l IH]; simpl; [constructor|].
  destruct (p x); [apply sublist_skip | apply sublist_cons]; exact IH.
Qed.

Lemma ascendingOffsets_filter (p : File -> bool) (fs : list File) :
  ascendingOffsets fs = true -> ascendingOffsets (List.filter p fs) = true.
Proof.
  induction fs as [|f fs IH]; simpl; [reflexivity|].
  intros H. apply andb_true_iff in H as [Hall Hrest].
  destruct (p f); simpl; [|apply IH, Hrest].
  apply andb_true_iff. split; [|apply IH, Hrest].
  apply forallb_forall. intros g Hg. apply filter_In in Hg as [Hg _].
  rewrite forallb_forall in Hall. apply Hall, Hg.
Qed.

(** C6: on a single-file torrent a fetch sends exactly one GET to the
    seed's base URL, with [range: bytes=start-end] for
    [start = pieceIndex * pieceLength + offset] and
    [end = start + length - 1]; outside a browser that is the only
    transport call. *)
Theorem C6_single_file_one_ranged_get
    (wc : WebConn.t) (tor : Torrent) (pieceIndex offset length : Z) :
  _torrent wc = Some tor -> List.length (files tor) = 1%nat ->
  let start := pieceIndex * pieceLength tor + offset in
  let end_ := start + length - 1 in
  let ranged :=
    GetConcat {| o_url := url wc; o_method := "GET";
                 o_headers :=
                   [("user-agent", "WebTorrent/" +:+ VERSION +:+ " (https://webtorrent.io)");
                    ("range", "bytes=" +:+ show_num start +:+ "-" +:+ show_num end_)] |} in
  exists calls result,
    fetch wc pieceIndex offset length = Normal (calls, result) /\
    getsTo (url wc) calls = [ranged] /\
    (window = None -> calls = [ranged]).
Proof.
  intros Ht Hn start end_ ranged. unfold httpRequest.
  rewrite (buildRequests_single wc tor pieceIndex offset length Ht) by lia.
  cbn [bindC List.length Nat.ltb Nat.leb map concat].
  do 2 eexists. split; [reflexivity|]. rewrite app_nil_r. split.
  - apply (makeRequest_getsTo
             {| r_url := url wc; r_pieceIndex := pieceIndex; r_offset := offset;
                r_length := length; r_fileOffsetInRange := None;
                r_start := start; r_end := end_ |}).
  - intros Hw. apply makeRequest_node, Hw.
Qed.

(** C3, amended: on a torrent of two or more files, a fetch of at least
    one byte whose range meets no file fails with the error of
    [httpRequest] and makes no HTTP call. *)
Theorem C3_no_file_multi_file
    (wc : WebConn.t) (tor : Torrent) (pieceIndex offset length : Z) :
  _torrent wc = Some tor ->
  (2 <= List.length (files tor))%nat ->
  contiguousFrom 0 (files tor) = true ->
  0 <= pieceIndex * pieceLength tor + offset ->
  1 <= length ->
  (forall file, In file (files tor) ->
     ~ intersects file (pieceIndex * pieceLength tor + offset)
                       (pieceIndex * pieceLength tor + offset + length - 1)) ->
  fetch wc pieceIndex offset length = Normal ([], CbError noFileError).
Proof.
  intros Ht Hn Hc H0 Hl Hno. unfold httpRequest, _buildRequests.
  rewrite Ht. cbv zeta.
  destruct (Nat.leb_spec (List.length (files tor)) 1); [lia|].
  set (rangeStart := pieceIndex * pieceLength tor + offset) in *.
  set (rangeEnd := rangeStart + length - 1) in *.
  assert (Hnil : List.filter (selected rangeStart rangeEnd) (files tor) = []).
  { destruct (List.filter _ (files tor)) as [|file fs] eqn:E; [reflexivity|].
    assert (Hin : In file (List.filter (selected rangeStart rangeEnd) (files tor)))
      by (rewrite E; left; reflexivity).
    apply filter_In in Hin as [Hin Hsel].
    destruct (selected_some_intersects (files tor) 0 rangeStart rangeEnd file)
      as (g & Hg & Hi); [exact Hc | unfold rangeEnd; lia | exact Hin | exact Hsel |].
    destruct (Hno g Hg Hi). }
  rewrite Hnil. reflexivity.
Qed.

(** The buffer [Buffer.concat (buffers, length)] builds. *)
Lemma Buffer_concat_length (buffers : list Buffer) (length : Z) :
  0 <= length -> Z.of_nat (List.length (Buffer_concat buffers length)) = length.
Proof.
  intros Hl. unfold Buffer_concat. cbv zeta.
  rewrite length_take, length_app, length_replicate. lia.
Qed.

Lemma Buffer_concat_exact (buffers : list Buffer) (length : Z) :
  Z.of_nat (List.length (concat buffers)) = length ->
  Buffer_concat buffers length = concat buffers.
Proof.
  intros Hl. unfold Buffer_concat. cbv zeta.
  rewrite take_app_le by lia. apply take_ge. lia.
Qed.

(** C7, amended: a fetch all of whose sub-requests succeed returns, for
    exactly one sub-request, that body unmodified; for two or more, a
    buffer of exactly [length] bytes that is the concatenation of the
    bodies, taken in the order of the files by ascending offset, cut off
    at [length] bytes or zero-filled up to them, and so the concatenation
    itself whenever the bodies add up to [length] bytes. *)
Theorem C7_reassembled_block
    (wc : WebConn.t) (tor : Torrent) (pieceIndex offset length : Z)
    (requests : list Request) (bodies : list Buffer) :
  _torrent wc = Some tor ->
  ascendingOffsets (files tor) = true ->
  0 <= length ->
  _buildRequests wc pieceIndex offset length = Normal requests ->
  requests <> [] ->
  Forall2 (fun rq b => snd (makeRequest rq) = Resolved b) requests bodies ->
  exists calls buf,
    fetch wc pieceIndex offset length = Normal (calls, CbData buf) /\
    (forall b, bodies = [b] -> buf = b) /\
    ((2 <= List.length bodies)%nat ->
       Z.of_nat (List.length buf) = length /\
       buf = take (Z.to_nat length)
                  (concat bodies ++ replicate (Z.to_nat length) Byte.x00) /\
       (Z.of_nat (List.length (concat bodies)) = length -> buf = concat bodies) /\
       exists fs, fs `sublist_of` files tor /\ ascendingOffsets fs = true /\
                  Forall2 (requestFor wc) fs requests).
Proof.
  intros Ht Hasc Hl Hb Hne Hall. unfold httpRequest. rewrite Hb. cbn [bindC].
  destruct requests as [|rq0 requests]; [congruence|].
  cbn [List.length Nat.ltb Nat.leb].
  rewrite (Promise_all_resolved _ _ Hall).
  pose proof (Forall2_length _ _ _ Hall) as Hlen.
  destruct bodies as [|b0 [|b1 bodies]]; [discriminate Hlen| |].
  - do 2 eexists. split; [reflexivity|]. split.
    + intros b [= ->]. reflexivity.
    + simpl. lia.
  - do 2 eexists. split; [reflexivity|]. split; [intros b [=]|].
    intros _. split; [apply Buffer_concat_length, Hl|].
    split; [reflexivity|]. split; [apply Buffer_concat_exact|].
    destruct (Nat.leb_spec (List.length (files tor)) 1) as [Hle | Hgt].
    + rewrite (buildRequests_single wc tor pieceIndex offset length Ht Hle) in Hb.
      injection Hb as _ <-. simpl in Hlen. lia.
    + destruct (buildRequests_multi wc tor pieceIndex offset length Ht ltac:(lia))
        as (requests' & Hb' & Hfor).
      rewrite Hb in Hb'. injection Hb' as <-.
      eexists. split; [apply filter_sublist|].
      split; [apply ascendingOffsets_filter, Hasc|].
      eapply Forall2_impl; [exact Hfor|]. intros file rq (Hrq & _). exact Hrq.
Qed.

End HttpFacts.

(** ** The fetch results on concrete swarms *)

(** The specification's example: pieces of 256 KiB, block 2/10/100. *)
Lemma C6_witness :
  WebConn._torrent (seedOf bigPieces) = Some bigPieces /\
  List.length (files bigPieces) = 1%nat /\
  exists calls result,
    WebConn.httpRequest "0.98.0" None deadGet deadHead (seedOf bigPieces) 2 10 100
    = Normal (calls, result) /\
    getsTo "http://seed.example/pub" calls
    = [WebConn.GetConcat
         {| WebConn.o_url := "http://seed.example/pub";
            WebConn.o_method := "GET";
            WebConn.o_headers :=
              [("user-agent", "WebTorrent/0.98.0 (https://webtorrent.io)");
               ("range", "bytes=524298-524397")] |}] /\
    (@None string = None ->
     calls
     = [WebConn.GetConcat
          {| WebConn.o_url := "http://seed.example/pub";
             WebConn.o_method := "GET";
             WebConn.o_headers :=
               [("user-agent", "WebTorrent/0.98.0 (https://webtorrent.io)");
                ("range", "bytes=524298-524397")] |}]).
Proof.
  split; [reflexivity|]. split; [reflexivity|].
  exact (C6_single_file_one_ranged_get "0.98.0" None deadGet deadHead
           (seedOf bigPieces) bigPieces 2 10 100 eq_refl eq_refl).
Defined.

(** C3 as stated fails on a single-file torrent: the block at bytes
    500-509 of a 100-byte file meets no file, yet the single-file branch
    builds its one request and the fetch makes an HTTP call. *)
Lemma C3_single_file_still_requests : ~ noFileFound_anyFileCount.
Proof.
  intros H.
  specialize (H "0.98.0" None deadGet deadHead (seedOf oneFile) oneFile 5 0 10
                eq_refl eq_refl ltac:(simpl; lia) ltac:(lia)).
  assert (Hno : forall file, In file (files oneFile) -> ~ intersects file 500 509).
  { intros file [<- | []] (x & Hx1 & Hx2). simpl in Hx1. lia. }
  specialize (H Hno). vm_compute in H. discriminate H.
Qed.

Lemma C3_witness :
  WebConn._torrent (seedOf threeFiles) = Some threeFiles /\
  (2 <= List.length (files threeFiles))%nat /\
  contiguousFrom 0 (files threeFiles) = true /\
  0 <= 1 * pieceLength threeFiles + 0 /\
  1 <= 10 /\
  (forall file, In file (files threeFiles) -> ~ intersects file 250 259) /\
  WebConn.httpRequest "0.98.0" None deadGet deadHead (seedOf threeFiles) 1 0 10
  = Normal ([], WebConn.CbError noFileError).
Proof.
  assert (Hno : forall file, In file (files threeFiles) -> ~ intersects file 250 259).
  { intros file [<- | [<- | [<- | []]]] (x & Hx1 & Hx2); simpl in Hx1; lia. }
  split; [reflexivity|]. split; [simpl; lia|]. split; [reflexivity|].
  split; [simpl; lia|]. split; [lia|]. split; [exact Hno|].
  apply (C3_no_file_multi_file "0.98.0" None deadGet deadHead
           (seedOf threeFiles) threeFiles 1 0 10);
    [reflexivity | simpl; lia | reflexivity | simpl; lia | lia | exact Hno].
Defined.

(** C7 as stated fails when a server ignores [Range]: the block at bytes
    2-5 of two 4-byte files takes two sub-requests, each answered with
    status 200 and three bytes; the fetch returns the first four of the
    six bytes, not their concatenation. *)
Lemma C7_bodies_longer_than_block : ~ plainConcatenation.
Proof.
  intros H.
  destruct (H "0.98.0" None wholeFileGet deadHead (seedOf twoFiles) 0 2 4 _
              [[Byte.x01; Byte.x02; Byte.x03]; [Byte.x01; Byte.x02; Byte.x03]]
              eq_refl)
    as (calls & Hfetch & _).
  - repeat constructor.
  - simpl. lia.
  - lia.
  - vm_compute in Hfetch. discriminate Hfetch.
Qed.

Lemma C7_witness :
  WebConn._torrent (seedOf twoFiles) = Some twoFiles /\
  ascendingOffsets (files twoFiles) = true /\
  0 <= 6 /\
  exists requests bodies,
    WebConn._buildRequests (seedOf twoFiles) 0 1 6 = Normal requests /\
    requests <> [] /\
    Forall2 (fun rq b =>
               snd (WebConn._makeRequest "0.98.0" None wholeFileGet deadHead rq)
               = WebConn.Resolved b) requests bodies /\
    exists calls buf,
      WebConn.httpRequest "0.98.0" None wholeFileGet deadHead (seedOf twoFiles) 0 1 6
      = Normal (calls, WebConn.CbData buf) /\
      (forall b, bodies = [b] -> buf = b) /\
      ((2 <= List.length bodies)%nat ->
         Z.of_nat (List.length buf) = 6 /\
         buf = take (Z.to_nat 6) (concat bodies ++ replicate (Z.to_nat 6) Byte.x00) /\
         (Z.of_nat (List.length (concat bodies)) = 6 -> buf = concat bodies) /\
         exists fs, fs `sublist_of` files twoFiles /\ ascendingOffsets fs = true /\
                    Forall2 (requestFor (seedOf twoFiles)) fs requests).
Proof.
  split; [reflexivity|]. split; [reflexivity|]. split; [lia|].
  eexists. exists [[Byte.x01; Byte.x02; Byte.x03]; [Byte.x01; Byte.x02; Byte.x03]].
  split; [reflexivity|]. split; [discriminate|].
  split; [repeat constructor|].
  apply (C7_reassembled_block "0.98.0" None wholeFileGet deadHead
           (seedOf twoFiles) twoFiles 0 1 6);
    [reflexivity | reflexivity | lia | reflexivity | discriminate
    | repeat constructor].
Defined.

(** * The content server's answers *)

Section ServerFacts.

Import Server.

Variable url_pathname : string -> option string.
Variable toNumber : string -> JsNumber.
Variable mime_lookup : string -> string.
Variable rangeParser : Z -> string -> RangeResult.

Local Abbreviation whenReady := (onReady toNumber mime_lookup rangeParser).
Local Abbreviation handle := (onRequest url_pathname toNumber mime_lookup rangeParser).

(** An index at which the array has an element is below its length. *)
Lemma elementAt_in_range {A} (arr : list A) (n : JsNumber) (x : A) :
  elementAt arr n = Some x ->
  Number_isNaN n = false /\ geLength n (List.length arr) = false.
Proof.
  destruct n as [| | |q]; try discriminate.
  unfold elementAt, Number_isNaN, geLength. cbv zeta.
  destruct (Pos.eqb_spec (Qden (Qred q)) 1) as [Hden|]; [|intros; discriminate].
  destruct (Z.leb_spec 0 (Qnum (Qred q))) as [Hnum|]; [|intros; discriminate].
  cbn [andb]. intros Hx. split; [reflexivity|].
  apply lookup_lt_Some in Hx.
  destruct (Qle_bool (inject_Z (Z.of_nat (List.length arr))) q) eqn:E; [|reflexivity].
  apply Qle_bool_iff in E. rewrite <- (Qred_correct q) in E.
  unfold Qle in E. rewrite Hden in E. simpl in E. lia.
Qed.

(** What the guard of [onReady] does catch: a path component that is not
    a number, or a number at or beyond the file count, is answered with
    404 and the body [404 Not Found], with no header added. *)
Lemma onReady_not_found (srv : Server.t) (torrent : Torrent)
    (req : IncomingMessage) (res : ServerResponse) (pathname : string) :
  _torrent srv = Some torrent -> pathname <> "/" ->
  Number_isNaN (toNumber (slice1 pathname))
    || geLength (toNumber (slice1 pathname)) (List.length (files torrent)) = true ->
  whenReady srv req res (Some pathname)
  = ({| statusCode := 404; resHeaders := resHeaders res;
        body := Ended "404 Not Found" |}, Normal ()).
Proof.
  intros Ht Hp Hg. unfold onReady.
  rewrite bool_decide_eq_false_2 by congruence.
  cbv zeta. destruct (Number_isNaN _); [reflexivity|].
  rewrite Ht. simpl in Hg. rewrite Hg. reflexivity.
Qed.

(** C4 (the cases the guard misses): a path component that [Number]
    reads as a number below the file count at which the file array has
    no element, such as a negative or a fractional one, is not answered
    with 404: [onReady] sets [Accept-Ranges] and then throws a
    [TypeError] reading the name of an undefined file. *)
Theorem C4_index_guard_misses (srv : Server.t) (torrent : Torrent)
    (req : IncomingMessage) (res : ServerResponse) (pathname : string) :
  _torrent srv = Some torrent -> pathname <> "/" ->
  Number_isNaN (toNumber (slice1 pathname)) = false ->
  geLength (toNumber (slice1 pathname)) (List.length (files torrent)) = false ->
  elementAt (files torrent) (toNumber (slice1 pathname)) = None ->
  whenReady srv req res (Some pathname)
  = (setHeader res "Accept-Ranges" "bytes",
     Throw (TypeError "Cannot read property 'name' of undefined")).
Proof.
  intros Ht Hp Hnan Hge Hnone. unfold onReady.
  rewrite bool_decide_eq_false_2 by congruence.
  cbv zeta. rewrite Hnan, Ht, Hge, Hnone. reflexivity.
Qed.

(** C8: a GET or HEAD for a valid file index, once the torrent is ready.
    When the parser returns ranges, the answer is 206 with
    [Content-Range: bytes start-end/total] and
    [Content-Length = end - start + 1] of the first range, and only that
    range is streamed; when it returns an error code, the answer is 200
    with [Content-Length = total]. *)
Theorem C8_range_or_whole_file (srv : Server.t) (torrent : Torrent)
    (req : IncomingMessage) (res : ServerResponse) (pathname : string)
    (file : File) :
  _torrent srv = Some torrent -> ready torrent = true ->
  method req = "GET" \/ method req = "HEAD" ->
  url_pathname (req_url req) = Some pathname ->
  pathname <> "/" -> pathname <> "/favicon.ico" ->
  elementAt (files torrent) (toNumber (slice1 pathname)) = Some file ->
  let total := f_length file in
  let parsed := rangeParser total (default EmptyString (truthy (headers req !! "range"))) in
  let res' := snd (fst (handle srv req res)) in
  (forall first rest, parsed = RangeArray (first :: rest) ->
     snd (handle srv req res) = Normal () /\
     statusCode res' = 206 /\
     resHeaders res' !! "Content-Range"
     = Some ("bytes " +:+ show_num (start first) +:+ "-" +:+ show_num (end_ first)
               +:+ "/" +:+ show_num total) /\
     resHeaders res' !! "Content-Length"
     = Some (show_num (end_ first - start first + 1)) /\
     body res' = if String.eqb (method req) "HEAD" then Ended EmptyString
                 else Pumped file (Some first)) /\
  (forall code, parsed = RangeError code ->
     snd (handle srv req res) = Normal () /\
     statusCode res' = 200 /\
     resHeaders res' !! "Content-Length" = Some (show_num total) /\
     body res' = if String.eqb (method req) "HEAD" then Ended EmptyString
                 else Pumped file None).
Proof.
  intros Ht Hr Hm Hu Hp Hf Hfile total parsed res'.
  destruct (elementAt_in_range _ _ _ Hfile) as [Hnan Hge].
  assert (Hopt : String.eqb (method req) "OPTIONS" = false)
    by (destruct Hm as [-> | ->]; reflexivity).
  subst res'. unfold onRequest. rewrite Hopt, Hu.
  rewrite bool_decide_eq_false_2 by congruence.
  rewrite Ht, Hr. unfold onReady.
  rewrite bool_decide_eq_false_2 by congruence.
  cbv zeta. rewrite Hnan, Ht, Hge, Hfile. fold total. fold parsed.
  split.
  - intros first rest ->.
    destruct (String.eqb (method req) "HEAD"); cbn [orb fst snd statusCode body resHeaders
      setHeader setStatus end_with pump];
      (split; [reflexivity|]); (split; [reflexivity|]);
      (split; [rewrite lookup_insert_ne by discriminate; apply lookup_insert_eq|]);
      (split; [apply lookup_insert_eq | reflexivity]).
  - intros code ->.
    destruct (String.eqb (method req) "HEAD"); cbn [orb fst snd statusCode body resHeaders
      setHeader setStatus end_with pump];
      (split; [reflexivity|]); (split; [reflexivity|]);
      (split; [apply lookup_insert_eq | reflexivity]).
Qed.

End ServerFacts.

(** ** The server's answers on a swarm of three 1000-byte files *)

(** The specification's example: [Range: bytes=0-99] on a 1000-byte
    file. *)
Lemma C8_witness :
  let srv := Server.constructor threeThousand in
  let req := request "GET" "/0" [("range", "bytes=0-99")] in
  let handled :=
    Server.onRequest samplePathname sampleNumber sampleMime sampleRangeParser
      srv req Server.freshResponse in
  let parsed :=
    sampleRangeParser 1000
      (default EmptyString (Server.truthy (Server.headers req !! "range"))) in
  Server._torrent srv = Some threeThousand /\
  ready threeThousand = true /\
  (Server.method req = "GET" \/ Server.method req = "HEAD") /\
  samplePathname (Server.req_url req) = Some "/0" /\
  "/0" <> "/" /\ "/0" <> "/favicon.ico" /\
  Server.elementAt (files threeThousand) (sampleNumber (Server.slice1 "/0"))
  = Some (plainFile "a.flac" 1000 0) /\
  (forall first rest, parsed = Server.RangeArray (first :: rest) ->
     snd handled = Normal () /\
     Server.statusCode (snd (fst handled)) = 206 /\
     Server.resHeaders (snd (fst handled)) !! "Content-Range"
     = Some ("bytes " +:+ show_num (Server.start first) +:+ "-"
               +:+ show_num (Server.end_ first) +:+ "/" +:+ show_num 1000) /\
     Server.resHeaders (snd (fst handled)) !! "Content-Length"
     = Some (show_num (Server.end_ first - Server.start first + 1)) /\
     Server.body (snd (fst handled))
     = if String.eqb (Server.method req) "HEAD" then Server.Ended EmptyString
       else Server.Pumped (plainFile "a.flac" 1000 0) (Some first)) /\
  (forall code, parsed = Server.RangeError code ->
     snd handled = Normal () /\
     Server.statusCode (snd (fst handled)) = 200 /\
     Server.resHeaders (snd (fst handled)) !! "Content-Length"
     = Some (show_num 1000) /\
     Server.body (snd (fst handled))
     = if String.eqb (Server.method req) "HEAD" then Server.Ended EmptyString
       else Server.Pumped (plainFile "a.flac" 1000 0) None).
Proof.
  intros srv req handled parsed.
  assert (Hfile : Server.elementAt (files threeThousand)
                    (sampleNumber (Server.slice1 "/0"))
                  = Some (plainFile "a.flac" 1000 0)) by reflexivity.
  split; [reflexivity|]. split; [reflexivity|]. split; [left; reflexivity|].
  split; [reflexivity|]. split; [discriminate|]. split; [discriminate|].
  split; [exact Hfile|].
  apply (C8_range_or_whole_file samplePathname sampleNumber sampleMime
           sampleRangeParser srv threeThousand req Server.freshResponse "/0"
           (plainFile "a.flac" 1000 0));
    [reflexivity | reflexivity | left; reflexivity | reflexivity
    | discriminate | discriminate | exact Hfile].
Defined.

(** The specification's examples, run: a ranged GET, a GET without
    [Range], and [GET /99] on three files. *)
Example ranged_get_example :
  let res := snd (fst (Server.onRequest samplePathname sampleNumber sampleMime
                         sampleRangeParser (Server.constructor threeThousand)
                         (request "GET" "/0" [("range", "bytes=0-99")])
                         Server.freshResponse)) in
  Server.statusCode res = 206 /\
  Server.resHeaders res !! "Content-Range" = Some "bytes 0-99/1000" /\
  Server.resHeaders res !! "Content-Length" = Some "100".
Proof. vm_compute. repeat split. Qed.

Example whole_file_example :
  let res := snd (fst (Server.onRequest samplePathname sampleNumber sampleMime
                         sampleRangeParser (Server.constructor threeThousand)
                         (request "GET" "/0" []) Server.freshResponse)) in
  Server.statusCode res = 200 /\
  Server.resHeaders res !! "Content-Length" = Some "1000".
Proof. vm_compute. repeat split. Qed.

Example too_large_index_example :
  Server.onRequest samplePathname sampleNumber sampleMime sampleRangeParser
    (Server.constructor threeThousand) (request "GET" "/99" [])
    Server.freshResponse
  = (Server.constructor threeThousand,
     {| Server.statusCode := 404; Server.resHeaders := ∅;
        Server.body := Server.Ended "404 Not Found" |},
     Normal ()).
Proof. reflexivity. Qed.

(** [GET /-1] on three files: not a 404 but a [TypeError], thrown after
    [Accept-Ranges] was set. *)
Lemma C4_witness :
  let srv := Server.constructor threeThousand in
  let req := request "GET" "/-1" [] in
  Server._torrent srv = Some threeThousand /\
  "/-1" <> "/" /\
  Server.Number_isNaN (sampleNumber (Server.slice1 "/-1")) = false /\
  Server.geLength (sampleNumber (Server.slice1 "/-1"))
    (List.length (files threeThousand)) = false /\
  Server.elementAt (files threeThousand) (sampleNumber (Server.slice1 "/-1")) = None /\
  Server.onReady sampleNumber sampleMime sampleRangeParser srv req
    Server.freshResponse (Some "/-1")
  = (Server.setHeader Server.freshResponse "Accept-Ranges" "bytes",
     Throw (TypeError "Cannot read property 'name' of undefined")).
Proof.
  intros srv req.
  split; [reflexivity|]. split; [discriminate|]. split; [reflexivity|].
  split; [reflexivity|]. split; [reflexivity|].
  apply (C4_index_guard_misses sampleNumber sampleMime sampleRangeParser
           srv threeThousand req Server.freshResponse "/-1");
    [reflexivity | discriminate | reflexivity | reflexivity | reflexivity].
Defined.

(** A fractional index slips through the guard in the same way. *)
Example fractional_index_example :
  snd (Server.onReady sampleNumber sampleMime sampleRangeParser
         (Server.constructor threeThousand) (request "GET" "/0.5" [])
         Server.freshResponse (Some "/0.5"))
  = Throw (TypeError "Cannot read property 'name' of undefined").
Proof. reflexivity. Qed.

(** * Tearing the content server down *)

Section ServerTeardown.

Import Server.

(** The first [destroy] destroys the tracked sockets, marks the server
    closed, drops the parked requests and the torrent, and closes the
    listening socket with the callback. *)
Lemma server_destroy_first (srv : Server.t) (torrent : Torrent) (cb : option Callback) :
  _closed srv = false -> _torrent srv = Some torrent ->
  destroy srv cb
  = ({| _torrent := None; _sockets := _sockets srv; _pendingReady := [];
        _closed := true |},
     map SocketDestroy (_sockets srv) ++ [HttpServerClose (default EmptyFn cb)],
     Normal ()).
Proof.
  intros Hc Ht. unfold destroy, close. rewrite Hc, Ht.
  destruct (_pendingReady srv); reflexivity.
Qed.

(** A later [destroy] does not throw, leaves the server as it is, does
    not close the listening socket again, and queues the callback of
    this call for the next tick. *)
Lemma server_destroy_again (srv : Server.t) (cb : option Callback) :
  _closed srv = true ->
  destroy srv cb
  = (srv, map SocketDestroy (_sockets srv) ++ [NextTick (default EmptyFn cb)],
     Normal ()) /\
  queuedForNextTick (snd (fst (destroy srv cb))) = [default EmptyFn cb].
Proof.
  intros Hc. unfold destroy. rewrite Hc. split; [reflexivity|].
  cbn [fst snd]. unfold queuedForNextTick.
  induction (_sockets srv) as [|s l IH]; [reflexivity | exact IH].
Qed.

(** Once the destroyed sockets have closed and left [_sockets], a later
    [destroy] does nothing but queue the callback. *)
Lemma server_destroy_completed (srv : Server.t) (cb : option Callback) :
  _closed srv = true -> _sockets srv = [] ->
  destroy srv cb = (srv, [NextTick (default EmptyFn cb)], Normal ()).
Proof.
  intros Hc Hs. unfold destroy. rewrite Hc, Hs. reflexivity.
Qed.

End ServerTeardown.

(** * The TCP pool *)

Section PoolFacts.

Import TCPPool.

Variable closeThrowsWhenNotRunning : bool.

Local Abbreviation teardown := (destroy closeThrowsWhenNotRunning).

(** A [destroy] that returns leaves the pool without server, client and
    pending list. *)
Lemma pool_destroy_clears (pool pool' : TCPPool.t) (cb : option Callback)
    (effs : list Effect) :
  teardown pool cb = (pool', effs, Normal ()) ->
  pool' = {| server := None; _client := None; _pendingConns := None |}.
Proof.
  unfold destroy. destruct (server pool); [|intros [=]].
  destruct (_pendingConns pool); intros [=]. congruence.
Qed.

(** The first [destroy] of a live pool detaches the listeners, destroys
    every pending connection and closes the server with the callback;
    when closing throws, the callback is queued for the next tick. *)
Lemma pool_destroy_first (pool : TCPPool.t) (srv : NetServer) (conns : list Conn)
    (cb : option Callback) :
  server pool = Some srv -> _pendingConns pool = Some conns ->
  exists closing,
    teardown pool cb
    = ({| server := None; _client := None; _pendingConns := None |},
       [ServerRemoveListener "connection"; ServerRemoveListener "listening";
        ServerRemoveListener "error"]
       ++ flat_map (fun c => [ConnOnError c; ConnDestroy c]) conns ++ closing,
       Normal ()) /\
    (closing = [ServerClose cb] \/
     closing = match cb with Some f => [NextTick f] | None => [] end).
Proof.
  intros Hs Hp. unfold destroy, server_close. rewrite Hs, Hp.
  destruct (negb (running srv) && closeThrowsWhenNotRunning);
    eexists; (split; [reflexivity|]); [right | left]; reflexivity.
Qed.

(** C5 (the pool): after a [destroy] that returned, a second [destroy]
    throws a [TypeError] on its first statement, [this.server] being
    null; it does nothing else, and the callback of the second call is
    neither passed on nor queued. *)
Theorem C5_pool_second_destroy_throws (pool pool' : TCPPool.t)
    (cb1 cb2 : option Callback) (effs : list Effect) :
  teardown pool cb1 = (pool', effs, Normal ()) ->
  teardown pool' cb2
  = (pool', [], Throw (TypeError "Cannot read property 'removeListener' of null")).
Proof.
  intros H. rewrite (pool_destroy_clears _ _ _ _ H). reflexivity.
Qed.

End PoolFacts.

Section RoutingFacts.

Import TCPPool.

(** [_cleanupPending] touches the pending list only. *)
Lemma cleanupPending_client (pool : TCPPool.t) (c : Conn) :
  _client (_cleanupPending pool c) = _client pool.
Proof. unfold _cleanupPending. destruct (_pendingConns pool); reflexivity. Qed.

(** A handshake for a swarm the client serves: the peer joins that
    swarm's peers and its handshake is completed. *)
Lemma onHandshake_routed (pool : TCPPool.t) (client : Client) (peers : list Peer)
    (peer : Peer) (infoHash peerId : string) :
  _client pool = Some client -> Client_get client infoHash = Some peers ->
  exists pool',
    _onHandshake pool peer infoHash peerId
    = (pool', [PeerOnHandshake peer infoHash peerId], Normal ()) /\
    exists client', _client pool' = Some client' /\
                    torrents client' !! infoHash = Some (peers ++ [peer]).
Proof.
  intros Hc Hg. unfold _onHandshake. rewrite Hc, Hg.
  eexists. split; [reflexivity|]. eexists. split; [reflexivity|].
  unfold _addIncomingPeer. cbn [torrents]. unfold Client_get in Hg.
  rewrite lookup_alter_eq, Hg. reflexivity.
Qed.

(** C9: when the handshake of an incoming connection names an info hash
    the client has no swarm for, the pool does exactly one thing: it
    destroys the peer with the error [Unexpected info hash ... from
    incoming peer ...].  The client and every swarm's peers stay as they
    were, so the peer is in no swarm it was not in before; nothing is
    retried and nothing else is told. *)
Theorem C9_unknown_info_hash (pool : TCPPool.t) (client : Client) (c : Conn)
    (peer : Peer) (infoHash peerId : string) :
  _client pool = Some client -> Client_get client infoHash = None ->
  exists pool',
    onHandshake pool c peer infoHash peerId
    = (pool',
       [PeerDestroy peer
          (Error_ ("Unexpected info hash " +:+ infoHash
                     +:+ " from incoming peer " +:+ id peer))],
       Normal ()) /\
    _client pool' = Some client /\
    (forall p, inSomeSwarm pool' p -> inSomeSwarm pool p).
Proof.
  intros Hc Hg. unfold onHandshake, _onHandshake.
  rewrite cleanupPending_client, Hc, Hg.
  eexists. split; [reflexivity|].
  rewrite cleanupPending_client. split; [exact Hc|].
  intros p (client' & ih & peers & Hc' & Hl & Hin).
  rewrite cleanupPending_client in Hc'.
  exists client', ih, peers. auto.
Qed.

End RoutingFacts.

(** ** The pool on a concrete run *)

Lemma C5_witness :
  TCPPool.destroy true aPool (Some (Cb 1))
  = ({| TCPPool.server := None; TCPPool._client := None;
        TCPPool._pendingConns := None |},
     [TCPPool.ServerRemoveListener "connection";
      TCPPool.ServerRemoveListener "listening";
      TCPPool.ServerRemoveListener "error";
      TCPPool.ConnOnError aConn; TCPPool.ConnDestroy aConn;
      TCPPool.ServerClose (Some (Cb 1))],
     Normal ()) /\
  TCPPool.destroy true
    {| TCPPool.server := None; TCPPool._client := None;
       TCPPool._pendingConns := None |} (Some (Cb 2))
  = ({| TCPPool.server := None; TCPPool._client := None;
        TCPPool._pendingConns := None |},
     [], Throw (TypeError "Cannot read property 'removeListener' of null")).
Proof.
  split; [reflexivity|].
  apply (C5_pool_second_destroy_throws true aPool _ (Some (Cb 1)) (Some (Cb 2))
           [TCPPool.ServerRemoveListener "connection";
            TCPPool.ServerRemoveListener "listening";
            TCPPool.ServerRemoveListener "error";
            TCPPool.ConnOnError aConn; TCPPool.ConnDestroy aConn;
            TCPPool.ServerClose (Some (Cb 1))]).
  reflexivity.
Defined.

Lemma C9_witness :
  TCPPool._client aPool = Some {| TCPPool.torrents := {[ "c0ffee" := [] ]} |} /\
  TCPPool.Client_get {| TCPPool.torrents := {[ "c0ffee" := [] ]} |} "deadbeef" = None /\
  exists pool',
    TCPPool.onHandshake aPool aConn aPeer "deadbeef" "-WW0001-"
    = (pool',
       [TCPPool.PeerDestroy aPeer
          (Error_ ("Unexpected info hash " +:+ "deadbeef"
                     +:+ " from incoming peer " +:+ TCPPool.id aPeer))],
       Normal ()) /\
    TCPPool._client pool' = Some {| TCPPool.torrents := {[ "c0ffee" := [] ]} |} /\
    (forall p, TCPPool.inSomeSwarm pool' p -> TCPPool.inSomeSwarm aPool p).
Proof.
  split; [reflexivity|]. split; [reflexivity|].
  apply (C9_unknown_info_hash aPool {| TCPPool.torrents := {[ "c0ffee" := [] ]} |}
           aConn aPeer "deadbeef" "-WW0001-"); reflexivity.
Defined.

(** * Removing from the unordered arrays *)

Section ArrayFacts.

Context {A : Type} `{EqDecision A}.

Lemma indexOf_elem (arr : list A) (x : A) :
  In x arr ->
  0 <= indexOf arr x /\ arr !! Z.to_nat (indexOf arr x) = Some x.
Proof.
  induction arr as [|y arr IH]; [intros []|]. intros Hin. simpl.
  destruct (decide (y = x)) as [-> | Hne]; [split; [lia | reflexivity]|].
  destruct Hin as [-> | Hin]; [congruence|].
  destruct (IH Hin) as [H0 Hl].
  destruct (Z.ltb_spec (indexOf arr x) 0); [lia|]. split; [lia|].
  replace (Z.to_nat (indexOf arr x + 1)) with (S (Z.to_nat (indexOf arr x))) by lia.
  exact Hl.
Qed.

Lemma indexOf_absent (arr : list A) (x : A) : ~ In x arr -> indexOf arr x = -1.
Proof.
  induction arr as [|y arr IH]; [reflexivity|]. intros Hn. simpl.
  destruct (decide (y = x)) as [-> | Hne]; [destruct Hn; left; reflexivity|].
  rewrite IH by (intros Hin; apply Hn; right; exact Hin). reflexivity.
Qed.

Lemma indexOf_last (arr : list A) (x : A) :
  ~ In x arr -> indexOf (arr ++ [x]) x = Z.of_nat (List.length arr).
Proof.
  induction arr as [|y arr IH]; intros Hn; simpl.
  - destruct (decide (x = x)); [reflexivity | congruence].
  - destruct (decide (y = x)) as [-> | Hne]; [destruct Hn; left; reflexivity|].
    rewrite IH by (intros Hin; apply Hn; right; exact Hin).
    destruct (Z.ltb_spec (Z.of_nat (List.length arr)) 0); lia.
Qed.

Lemma arrayRemove_snoc (arr : list A) (z : A) (i : Z) :
  0 <= i < Z.of_nat (List.length arr) + 1 ->
  arrayRemove (arr ++ [z]) i
  = if i <? Z.of_nat (List.length arr) then <[Z.to_nat i := z]> arr else arr.
Proof.
  intros Hi. unfold arrayRemove.
  rewrite length_app, map_app. cbn [map]. rewrite last_last, removelast_last.
  cbn [List.length].
  destruct (Z.leb_spec (Z.of_nat (List.length arr + 1)) i); [lia|].
  destruct (Z.ltb_spec i 0); [lia|]. reflexivity.
Qed.

Lemma arrayRemove_out_of_range (arr : list A) (i : Z) :
  i < 0 \/ Z.of_nat (List.length arr) <= i -> arrayRemove arr i = arr.
Proof.
  intros Hi. unfold arrayRemove.
  destruct (Z.leb_spec (Z.of_nat (List.length arr)) i); [reflexivity|].
  destruct (Z.ltb_spec i 0); [reflexivity | lia].
Qed.

(** Removing index [i] takes out the element that stands there and keeps
    every other element, in some order. *)
Lemma arrayRemove_Permutation (arr : list A) (i : Z) (x : A) :
  0 <= i -> arr !! Z.to_nat i = Some x ->
  Permutation (x :: arrayRemove arr i) arr.
Proof.
  intros H0 Hx. pose proof (lookup_lt_Some _ _ _ Hx) as Hlt.
  destruct arr as [|a arr'] using rev_ind; [simpl in Hlt; lia|]. clear IHarr'.
  rewrite length_app in Hlt. simpl in Hlt.
  rewrite arrayRemove_snoc by lia.
  destruct (Z.ltb_spec i (Z.of_nat (List.length arr'))) as [Hin | Hout].
  - rewrite lookup_app_l in Hx by lia.
    rewrite insert_take_drop by lia.
    pose proof (take_drop_middle arr' (Z.to_nat i) x Hx) as Hsplit.
    remember (take (Z.to_nat i) arr') as T eqn:HT.
    remember (drop (S (Z.to_nat i)) arr') as D eqn:HD.
    clear HT HD. subst arr'.
    rewrite <- !Permutation_middle. simpl. rewrite app_nil_r. apply perm_swap.
  - assert (Z.to_nat i = List.length arr') as Hi by lia.
    rewrite Hi, lookup_app_r, Nat.sub_diag in Hx by lia.
    injection Hx as <-. rewrite <- Permutation_cons_append. reflexivity.
Qed.

Lemma remove_found_Permutation (arr : list A) (x : A) :
  In x arr -> Permutation (x :: arrayRemove arr (indexOf arr x)) arr.
Proof.
  intros Hin. destruct (indexOf_elem arr x Hin) as [H0 Hl].
  apply arrayRemove_Permutation; assumption.
Qed.

Lemma remove_absent (arr : list A) (x : A) :
  ~ In x arr -> arrayRemove arr (indexOf arr x) = arr.
Proof.
  intros Hn. rewrite indexOf_absent by exact Hn.
  apply arrayRemove_out_of_range. lia.
Qed.

(** What was pushed last and is not in the array otherwise comes out
    again, and the array is as before. *)
Lemma push_remove (arr : list A) (x : A) :
  ~ In x arr -> arrayRemove (arr ++ [x]) (indexOf (arr ++ [x]) x) = arr.
Proof.
  intros Hn. rewrite indexOf_last by exact Hn.
  rewrite arrayRemove_snoc by lia.
  destruct (Z.ltb_spec (Z.of_nat (List.length arr)) (Z.of_nat (List.length arr)));
    [lia | reflexivity].
Qed.

End ArrayFacts.

(** * The pool's pending connections *)

Section PendingFacts.

Import TCPPool.

(** X1: [_cleanupPending] takes a pending connection out of the pending
    list and keeps every other one (in some order, the last one moving
    into the gap); server and client are untouched. *)
Theorem X1_cleanup_removes_conn (pool : TCPPool.t) (conns : list Conn) (c : Conn) :
  _pendingConns pool = Some conns -> NoDup conns -> In c conns ->
  exists conns',
    _cleanupPending pool c
    = {| server := server pool; _client := _client pool;
         _pendingConns := Some conns' |} /\
    ~ In c conns' /\ Permutation (c :: conns') conns /\ NoDup conns'.
Proof.
  intros Hp Hnd Hin. unfold _cleanupPending. rewrite Hp.
  eexists. split; [reflexivity|].
  pose proof (remove_found_Permutation conns c Hin) as Hperm.
  assert (Hnd' : NoDup (c :: arrayRemove conns (indexOf conns c))).
  { rewrite Hperm. exact Hnd. }
  apply NoDup_cons in Hnd' as [Hnotin Hnd']. rewrite list_elem_of_In in Hnotin.
  split; [exact Hnotin|]. split; [exact Hperm | exact Hnd'].
Qed.

(** X2: a cleanup for a connection that is not pending, or on a pool that
    was destroyed, changes nothing and does not throw. *)
Theorem X2_cleanup_without_effect (pool : TCPPool.t) (c : Conn) :
  (forall conns, _pendingConns pool = Some conns -> ~ In c conns) ->
  _cleanupPending pool c = pool.
Proof.
  intros Hn. unfold _cleanupPending. destruct pool as [srv cl [conns|]]; simpl in *.
  - rewrite remove_absent by (apply Hn; reflexivity). reflexivity.
  - reflexivity.
Qed.


(** X4: a connection that is accepted and then sends a handshake for a
    swarm the client serves is no longer pending, its peer is appended to
    that swarm's peers and to no other swarm's, and the only effect is
    the completion of the peer's handshake. *)
Theorem X4_accept_then_route (createTCPIncomingPeer : Conn -> Peer)
    (pool : TCPPool.t) (conns : list Conn) (c : Conn)
    (address : string) (client : Client) (peers : list Peer)
    (infoHash peerId : string) :
  _pendingConns pool = Some conns -> remoteAddress c = Some address ->
  ~ In c conns ->
  _client pool = Some client -> Client_get client infoHash = Some peers ->
  let peer := createTCPIncomingPeer c in
  exists pool1 pool2 client2,
    _onConnection createTCPIncomingPeer pool c = (pool1, [], Normal (Some peer)) /\
    onHandshake pool1 c peer infoHash peerId
    = (pool2, [PeerOnHandshake peer infoHash peerId], Normal ()) /\
    _pendingConns pool2 = Some conns /\
    _client pool2 = Some client2 /\
    torrents client2 !! infoHash = Some (peers ++ [peer]) /\
    (forall other, other <> infoHash ->
                   torrents client2 !! other = torrents client !! other).
Proof.
  intros Hp Ha Hn Hc Hg peer. unfold _onConnection. rewrite Ha, Hp.
  do 3 eexists. split; [reflexivity|].
  unfold onHandshake, _cleanupPending, _onHandshake.
  cbn [_pendingConns server _client]. rewrite push_remove by exact Hn.
  cbn [_pendingConns server _client]. rewrite Hc, Hg.
  split; [reflexivity|]. split; [reflexivity|]. split; [reflexivity|].
  unfold _addIncomingPeer, Client_get in *. cbn [torrents]. split.
  - rewrite lookup_alter_eq, Hg. reflexivity.
  - intros other Hne. apply lookup_alter_ne. congruence.
Qed.


End PendingFacts.

(** * The content server's sockets and teardown *)

Section ServerSocketFacts.

Import Server.

Lemma socketsClosed_closed (sockets : list Socket) (srv : Server.t) :
  _closed (socketsClosed srv sockets) = _closed srv /\
  _torrent (socketsClosed srv sockets) = _torrent srv /\
  _pendingReady (socketsClosed srv sockets) = _pendingReady srv.
Proof.
  unfold socketsClosed. revert srv.
  induction sockets as [|s l IH]; intros srv; [auto|].
  simpl. destruct (IH (socketClosed srv s)) as (H1 & H2 & H3).
  rewrite H1, H2, H3. auto.
Qed.

Lemma socketsClosed_empties (sockets : list Socket) (srv : Server.t) :
  Permutation (_sockets srv) sockets -> _sockets (socketsClosed srv sockets) = [].
Proof.
  unfold socketsClosed. revert srv.
  induction sockets as [|s l IH]; intros srv Hperm; simpl.
  - apply Permutation_nil. symmetry. exact Hperm.
  - apply IH. unfold socketClosed. cbn [_sockets].
    assert (Hin : In s (_sockets srv)).
    { eapply Permutation_in; [symmetry; exact Hperm | left; reflexivity]. }
    pose proof (remove_found_Permutation (_sockets srv) s Hin) as Hrem.
    eapply Permutation_cons_inv. rewrite Hrem. exact Hperm.
Qed.

(** X6: a socket that connects is given the 36000000 ms timeout and is
    tracked; once it closes, the tracked sockets are those from before
    the connection again, and nothing else of the server has changed. *)
Theorem X6_socket_tracked_until_close (srv : Server.t) (socket : Socket) :
  let srv1 := fst (onConnection srv socket) in
  let srv2 := socketClosed srv1 socket in
  snd (onConnection srv socket) = [SocketSetTimeout socket 36000000] /\
  In socket (_sockets srv1) /\
  Permutation (_sockets srv2) (_sockets srv) /\
  _torrent srv2 = _torrent srv /\ _pendingReady srv2 = _pendingReady srv /\
  _closed srv2 = _closed srv.
Proof.
  cbn zeta. unfold onConnection, socketClosed. cbn [fst snd _sockets
    _torrent _pendingReady _closed].
  split; [reflexivity|].
  assert (Hin : In socket (_sockets srv ++ [socket]))
    by (apply in_or_app; right; left; reflexivity).
  split; [exact Hin|]. split; [|auto].
  pose proof (remove_found_Permutation _ socket Hin) as Hrem.
  eapply Permutation_cons_inv. etransitivity; [exact Hrem|].
  symmetry. apply Permutation_cons_append.
Qed.

(** X7: tearing the server down twice.  The first [destroy] destroys
    every tracked socket, drops the parked requests and the torrent, and
    closes the listening socket with its callback; after the sockets have
    closed, a second [destroy] changes nothing, closes nothing, and only
    queues its own callback for the next tick.  Neither call throws. *)
Theorem X7_server_destroy_twice (srv : Server.t) (torrent : Torrent)
    (cb1 cb2 : option Callback) :
  _closed srv = false -> _torrent srv = Some torrent ->
  exists srv1,
    destroy srv cb1
    = (srv1,
       map SocketDestroy (_sockets srv) ++ [HttpServerClose (default EmptyFn cb1)],
       Normal ()) /\
    _pendingReady srv1 = [] /\ _torrent srv1 = None /\
    destroy (socketsClosed srv1 (_sockets srv)) cb2
    = (socketsClosed srv1 (_sockets srv), [NextTick (default EmptyFn cb2)],
       Normal ()) /\
    List.filter closesListener
      (snd (fst (destroy (socketsClosed srv1 (_sockets srv)) cb2))) = [].
Proof.
  intros Hc Ht.
  assert (H1 : destroy srv cb1
               = ({| _torrent := None; _sockets := _sockets srv;
                     _pendingReady := []; _closed := true |},
                  map SocketDestroy (_sockets srv)
                    ++ [HttpServerClose (default EmptyFn cb1)],
                  Normal ())).
  { unfold destroy, close. rewrite Hc, Ht.
    destruct (_pendingReady srv); reflexivity. }
  eexists. split; [exact H1|]. split; [reflexivity|]. split; [reflexivity|].
  set (srv1 := {| _torrent := None; _sockets := _sockets srv;
                  _pendingReady := []; _closed := true |}).
  assert (H2 : destroy (socketsClosed srv1 (_sockets srv)) cb2
               = (socketsClosed srv1 (_sockets srv),
                  [NextTick (default EmptyFn cb2)], Normal ())).
  { unfold destroy.
    destruct (socketsClosed_closed (_sockets srv) srv1) as (Hcl & _ & _).
    rewrite Hcl, (socketsClosed_empties (_sockets srv) srv1) by reflexivity.
    reflexivity. }
  split; [exact H2|]. rewrite H2. reflexivity.
Qed.

End ServerSocketFacts.

(** * More on the content server's answers *)

Section ServerAnswerFacts.

Import Server.

Variable url_pathname : string -> option string.
Variable toNumber : string -> JsNumber.
Variable mime_lookup : string -> string.
Variable rangeParser : Z -> string -> RangeResult.

Local Abbreviation whenReady := (onReady toNumber mime_lookup rangeParser).
Local Abbreviation handle := (onRequest url_pathname toNumber mime_lookup rangeParser).
Local Abbreviation whenParked := (parkedOnReady toNumber mime_lookup rangeParser).

(** Reads a header off a chain of [setHeader]s. *)
Ltac header_lookup :=
  repeat first [ reflexivity
               | apply lookup_insert_eq
               | rewrite lookup_insert_ne by discriminate ].

(** Whatever [onReady] does to a response, it leaves a header it does
    not set itself as it was. *)
Lemma onReady_keeps_header (srv : Server.t) (req : IncomingMessage)
    (res : ServerResponse) (pathname : option string) (k : string) :
  k <> "Content-Type" -> k <> "Accept-Ranges" -> k <> "transferMode.dlna.org" ->
  k <> "contentFeatures.dlna.org" -> k <> "Content-Range" -> k <> "Content-Length" ->
  resHeaders (fst (whenReady srv req res pathname)) !! k = resHeaders res !! k.
Proof.
  intros H1 H2 H3 H4 H5 H6. unfold onReady.
  repeat match goal with
         | |- context [bool_decide ?P] => destruct (bool_decide P)
         | |- context [match ?x with _ => _ end] => destruct x
         end;
    cbn [fst resHeaders setHeader setStatus end_with pump];
    rewrite ?lookup_insert_ne by congruence; reflexivity.
Qed.

(** X8: a request that is not a CORS preflight and carries an [Origin]
    has that origin echoed in [Access-Control-Allow-Origin] on the
    response object, whichever way the request goes: favicon, parked,
    listing, 404, a file, or a handler that throws. *)
Theorem X8_origin_echoed (srv : Server.t) (req : IncomingMessage)
    (res : ServerResponse) (origin : string) :
  truthy (headers req !! "origin") = Some origin ->
  (if String.eqb (method req) "OPTIONS"
   then truthy (headers req !! "access-control-request-headers") else None) = None ->
  resHeaders (snd (fst (handle srv req res))) !! "Access-Control-Allow-Origin"
  = Some origin.
Proof.
  intros Ho Hpre. unfold onRequest. cbv zeta. rewrite Hpre, Ho.
  destruct (bool_decide _); [apply lookup_insert_eq|].
  destruct (_torrent srv) as [torrent|]; [|apply lookup_insert_eq].
  destruct (ready torrent); [|apply lookup_insert_eq].
  pose proof (onReady_keeps_header srv req
                (setHeader res "Access-Control-Allow-Origin" origin)
                (url_pathname (req_url req)) "Access-Control-Allow-Origin") as Hk.
  destruct (whenReady srv req _ _) as [res' c]. cbn [fst snd] in *.
  rewrite Hk by discriminate. apply lookup_insert_eq.
Qed.

(** X9: [onReady] opens a file stream only for a GET-like request on a
    file of the torrent, and then the response is complete: the handler
    returned, [Accept-Ranges] and the DLNA headers are set, and status,
    [Content-Length] and [Content-Range] describe exactly the range handed
    to the stream: 200 and the file's length for the whole file, 206 and
    [end - start + 1] for a range.  A HEAD request never opens a stream. *)
Theorem X9_stream_only_when_complete (srv : Server.t) (req : IncomingMessage)
    (res : ServerResponse) (pathname : option string) (file : File)
    (range : option Range) :
  body (fst (whenReady srv req res pathname)) = Pumped file range ->
  body res = Open ->
  let res' := fst (whenReady srv req res pathname) in
  snd (whenReady srv req res pathname) = Normal () /\
  method req <> "HEAD" /\
  (exists torrent, _torrent srv = Some torrent /\ In file (files torrent)) /\
  resHeaders res' !! "Accept-Ranges" = Some "bytes" /\
  resHeaders res' !! "transferMode.dlna.org" = Some "Streaming" /\
  resHeaders res' !! "contentFeatures.dlna.org" = Some DLNA_HEADER /\
  match range with
  | None =>
      statusCode res' = 200 /\
      resHeaders res' !! "Content-Length" = Some (show_num (f_length file))
  | Some r =>
      statusCode res' = 206 /\
      resHeaders res' !! "Content-Length"
      = Some (show_num (end_ r - start r + 1)) /\
      resHeaders res' !! "Content-Range"
      = Some ("bytes " +:+ show_num (start r) +:+ "-" +:+ show_num (end_ r)
                +:+ "/" +:+ show_num (f_length file))
  end.
Proof.
  unfold onReady. intros Hb Hopen. cbv zeta in *.
  destruct (bool_decide (pathname = Some "/")).
  { destruct (_torrent srv); cbn in Hb; congruence. }
  destruct pathname as [pathname|]; [|cbn in Hb; congruence].
  destruct (Number_isNaN _); [cbn in Hb; congruence|].
  destruct (_torrent srv) as [torrent|]; [|cbn in Hb; congruence].
  destruct (geLength _ _); [cbn in Hb; congruence|].
  destruct (elementAt (files torrent) _) as [file'|] eqn:Hfile;
    [|cbn in Hb; congruence].
  assert (Hin : In file' (files torrent)).
  { destruct (toNumber (slice1 pathname)) as [| | |q]; try discriminate Hfile.
    unfold elementAt in Hfile. cbv zeta in Hfile.
    destruct (_ && _); [|discriminate Hfile].
    apply list_elem_of_In. eapply list_elem_of_lookup_2. exact Hfile. }
  destruct (String.eqb (method req) "HEAD") eqn:Hhead.
  { destruct (rangeParser _ _) as [[|r rs]|code]; cbn in Hb; congruence. }
  assert (Hm : method req <> "HEAD").
  { intros E. rewrite E in Hhead. discriminate Hhead. }
  destruct (rangeParser _ _) as [[|r rs]|code];
    cbn [fst snd body pump setHeader setStatus end_with] in Hb;
    [congruence | |];
    injection Hb as <- <-;
    cbn [fst snd statusCode resHeaders body pump setHeader setStatus];
    (split; [reflexivity|]); (split; [exact Hm|]);
    (split; [exists torrent; split; [reflexivity | exact Hin]|]);
    repeat split; header_lookup.
Qed.

(** [onReady] reads nothing of the server but its torrent. *)
Lemma onReady_same_torrent (srv srv' : Server.t) (req : IncomingMessage)
    (res : ServerResponse) (pathname : option string) :
  _torrent srv = _torrent srv' ->
  whenReady srv req res pathname = whenReady srv' req res pathname.
Proof. intros H. unfold onReady. rewrite H. reflexivity. Qed.

(** X10: a request that arrives before the torrent is ready is parked:
    the handler returns, the response stays as open as it was, and the
    request is appended to [_pendingReady].  Whenever the parked closure
    then runs on the server with its torrent ready, at whatever index it
    stands by then, exactly its entry leaves [_pendingReady] and the
    request gets the answer a request arriving at that moment would
    get. *)
Theorem X10_parked_until_ready (srv : Server.t) (torrent : Torrent)
    (req : IncomingMessage) (res : ServerResponse) :
  _torrent srv = Some torrent -> ready torrent = false ->
  (if String.eqb (method req) "OPTIONS"
   then truthy (headers req !! "access-control-request-headers") else None) = None ->
  url_pathname (req_url req) <> Some "/favicon.ico" ->
  exists p,
    handle srv req res
    = ({| _torrent := _torrent srv; _sockets := _sockets srv;
          _pendingReady := _pendingReady srv ++ [p]; _closed := _closed srv |},
       p_res p, Normal ()) /\
    body (p_res p) = body res /\
    forall (later : Server.t) (torrent' : Torrent) (i : Z),
      _torrent later = Some torrent' -> ready torrent' = true ->
      0 <= i -> _pendingReady later !! Z.to_nat i = Some p ->
      exists later',
        whenParked later i p
        = (later', snd (fst (handle later req res)), snd (handle later req res)) /\
        Permutation (p :: _pendingReady later') (_pendingReady later) /\
        _torrent later' = _torrent later /\ _sockets later' = _sockets later.
Proof.
  intros Ht Hr Hpre Hfav. unfold onRequest at 1. cbv zeta.
  rewrite Hpre, Ht, Hr. rewrite bool_decide_eq_false_2 by exact Hfav.
  exists {| p_req := req;
            p_res := match truthy (headers req !! "origin") with
                     | Some o => setHeader res "Access-Control-Allow-Origin" o
                     | None => res
                     end;
            p_pathname := url_pathname (req_url req) |}.
  split; [reflexivity|]. cbn [p_res].
  split; [destruct (truthy (headers req !! "origin")); reflexivity|].
  intros later torrent' i Ht' Hr' Hi Hp.
  unfold parkedOnReady. cbn [p_req p_res p_pathname].
  unfold onRequest. cbv zeta.
  rewrite Hpre, Ht', Hr'. rewrite bool_decide_eq_false_2 by exact Hfav.
  remember (match truthy (headers req !! "origin") with
            | Some o => setHeader res "Access-Control-Allow-Origin" o
            | None => res
            end) as res0 eqn:Hres0.
  remember {| _torrent := Some torrent'; _sockets := _sockets later;
              _pendingReady := arrayRemove (_pendingReady later) i;
              _closed := _closed later |} as later' eqn:Hlater'.
  assert (Hsame : _torrent later' = _torrent later)
    by (subst later'; symmetry; exact Ht').
  rewrite (onReady_same_torrent later' later req res0
             (url_pathname (req_url req)) Hsame).
  destruct (whenReady later req res0 (url_pathname (req_url req))) as [res2 c2].
  exists later'. split; [reflexivity|]. subst later'.
  split; [apply arrayRemove_Permutation; assumption|]. split; reflexivity.
Qed.

End ServerAnswerFacts.

(** * The advertised bitfield, bit by bit *)

Section AdvertisedFacts.

Import WebConn.

Lemma mask_overlap (i k : Z) :
  Z.land (BitField.mask i) (BitField.mask k) <> 0 -> i mod 8 = k mod 8.
Proof.
  unfold BitField.mask.
  pose proof (Z.mod_pos_bound i 8 ltac:(lia)) as Hi.
  pose proof (Z.mod_pos_bound k 8 ltac:(lia)) as Hk.
  assert (Ha : i mod 8 = 0 \/ i mod 8 = 1 \/ i mod 8 = 2 \/ i mod 8 = 3 \/
               i mod 8 = 4 \/ i mod 8 = 5 \/ i mod 8 = 6 \/ i mod 8 = 7) by lia.
  assert (Hb : k mod 8 = 0 \/ k mod 8 = 1 \/ k mod 8 = 2 \/ k mod 8 = 3 \/
               k mod 8 = 4 \/ k mod 8 = 5 \/ k mod 8 = 6 \/ k mod 8 = 7) by lia.
  destruct Ha as [-> | [-> | [-> | [-> | [-> | [-> | [-> | ->]]]]]]];
    destruct Hb as [-> | [-> | [-> | [-> | [-> | [-> | [-> | ->]]]]]]];
    intros H; try reflexivity; exfalso; apply H; reflexivity.
Qed.

Lemma same_bit (i k : Z) :
  0 <= i -> 0 <= k ->
  Z.to_nat (Z.shiftr i 3) = Z.to_nat (Z.shiftr k 3) -> i mod 8 = k mod 8 -> i = k.
Proof.
  intros Hi Hk Hb Hm.
  rewrite !Z.shiftr_div_pow2 in Hb by lia. change (2 ^ 3) with 8 in Hb.
  assert (0 <= i / 8) by (apply Z.div_pos; lia).
  assert (0 <= k / 8) by (apply Z.div_pos; lia).
  rewrite (Z.div_mod i 8), (Z.div_mod k 8) by lia. lia.
Qed.

(** Setting bit [i] sets no other bit. *)
Lemma get_set_inv (b : BitField.t) (i k : Z) :
  0 <= i -> 0 <= k ->
  BitField.get (BitField.set b i) k = true -> BitField.get b k = true \/ k = i.
Proof.
  intros Hi Hk. unfold BitField.get, BitField.set. cbv zeta.
  destruct (b !! Z.to_nat (Z.shiftr i 3)) as [byte|] eqn:Hb; [|auto].
  destruct (decide (Z.to_nat (Z.shiftr i 3) = Z.to_nat (Z.shiftr k 3))) as [E|E].
  - rewrite <- E. rewrite Hb.
    rewrite list_lookup_insert_eq by (eapply lookup_lt_Some; exact Hb).
    intros Hg. apply negb_true_iff, Z.eqb_neq in Hg.
    rewrite Z.land_lor_distr_l in Hg.
    destruct (Z.eq_dec (Z.land byte (BitField.mask k)) 0) as [E0 | N0].
    + right. symmetry. apply same_bit; try assumption.
      apply mask_overlap. intros E1. apply Hg. rewrite E0, E1. reflexivity.
    + left. apply negb_true_iff, Z.eqb_neq. exact N0.
  - rewrite list_lookup_insert_ne by exact E. auto.
Qed.

Lemma get_fold_inv (l : list Z) (b : BitField.t) (k : Z) :
  Forall (fun i => 0 <= i) l -> 0 <= k ->
  BitField.get (fold_left BitField.set l b) k = true ->
  BitField.get b k = true \/ In k l.
Proof.
  revert b. induction l as [|i l IH]; intros b Hl Hk Hg; [auto|].
  apply Forall_cons in Hl as [Hi Hl]. simpl in Hg.
  destruct (IH _ Hl Hk Hg) as [Hset | Hin]; [|right; right; exact Hin].
  destruct (get_set_inv b i k Hi Hk Hset) as [Hb | ->]; [left; exact Hb|].
  right. left. reflexivity.
Qed.

Lemma get_new (n k : Z) : BitField.get (BitField.new n) k = false.
Proof.
  unfold BitField.get, BitField.new.
  destruct (replicate _ 0 !! _) as [byte|] eqn:E; [|reflexivity].
  apply lookup_replicate in E as [-> _]. reflexivity.
Qed.

Lemma get_in_range (b : BitField.t) (k : Z) :
  BitField.get b k = true -> (Z.to_nat (Z.shiftr k 3) < List.length b)%nat.
Proof.
  unfold BitField.get. destruct (b !! _) eqn:E; [|discriminate].
  intros _. eapply lookup_lt_Some. exact E.
Qed.

(** X11: the bitfield the bridge advertises for a swarm of [numPieces]
    pieces, bit by bit: bit [k] is set exactly when [k] is a piece of the
    swarm, or when [k = numPieces] and the last byte has a spare bit for
    it.  It is held in [ceil (numPieces / 8)] bytes. *)
Theorem X11_advertised_bits (numPieces k : Z) :
  0 <= numPieces -> 0 <= k ->
  (BitField.get (advertised numPieces) k = true
   <-> k < numPieces \/ (k = numPieces /\ numPieces mod 8 <> 0)) /\
  Z.of_nat (List.length (advertised numPieces)) = (numPieces + 7) / 8.
Proof.
  intros Hn Hk. split; [split|].
  - intros Hg. pose proof (get_in_range _ _ Hg) as Hrange.
    unfold advertised in Hg, Hrange.
    apply get_fold_inv in Hg; [| | exact Hk].
    + destruct Hg as [Hg | Hin]; [rewrite get_new in Hg; discriminate|].
      rewrite <- list_elem_of_In in Hin. apply elem_of_seqZ in Hin.
      destruct (Z.eq_dec k numPieces) as [-> | Hne]; [|left; lia].
      right. split; [reflexivity|]. intros Hmod.
      rewrite fold_set_length, new_length in Hrange.
      unfold BitField.getByteSize in Hrange.
      rewrite Hmod in Hrange. simpl in Hrange. lia.
    + apply Forall_forall. intros i Hi. apply elem_of_seqZ in Hi. lia.
  - intros [Hlt | [-> Hmod]].
    + apply advertised_every_piece. lia.
    + apply advertised_spare_bit; assumption.
  - unfold advertised. rewrite fold_set_length, new_length.
    unfold BitField.getByteSize. rewrite Z.shiftr_div_pow2 by lia.
    change (2 ^ 3) with 8.
    assert (0 <= numPieces / 8) by (apply Z.div_pos; lia).
    pose proof (Z.div_mod numPieces 8 ltac:(lia)) as Hdm.
    pose proof (Z.mod_pos_bound numPieces 8 ltac:(lia)) as Hb.
    destruct (numPieces mod 8 =? 0) eqn:E; simpl.
    + apply Z.eqb_eq in E. rewrite Z2Nat.id by lia.
      apply Z.div_unique with (r := 7); lia.
    + apply Z.eqb_neq in E. rewrite Z2Nat.id by lia.
      apply Z.div_unique with (r := numPieces mod 8 - 1); lia.
Qed.

(** X12: however many ['interested'] events arrive, the bridge calls
    [unchoke] exactly once, on the first of them. *)
Theorem X12_unchoke_once (n : nat) (wc : WebConn.t) :
  onceInterested wc = true ->
  snd (emit_interested_times (S n) wc) = [MsgUnchoke] /\
  onceInterested (fst (emit_interested_times (S n) wc)) = false.
Proof.
  assert (Hoff : forall m w, onceInterested w = false ->
                             emit_interested_times m w = (w, [])).
  { induction m as [|m IH]; intros w Hw; [reflexivity|].
    simpl. unfold emit_interested. rewrite Hw, (IH w Hw). reflexivity. }
  intros Hw. simpl. unfold emit_interested. rewrite Hw.
  rewrite (Hoff n (with_onceInterested wc false)) by reflexivity.
  split; reflexivity.
Qed.

End AdvertisedFacts.

(** * Which files a block is fetched from *)

Section SelectionFacts.

Import WebConn.

Lemma contiguous_lower (fs : list File) (o : Z) (h : File) :
  contiguousFrom o fs = true -> In h fs -> o <= f_offset h.
Proof.
  revert o. induction fs as [|f fs IH]; intros o Hc Hin; [destruct Hin|].
  simpl in Hc. apply andb_true_iff in Hc as [Hc Hrest].
  apply andb_true_iff in Hc as [Hoff Hlen].
  apply Z.eqb_eq in Hoff. apply Z.leb_le in Hlen.
  destruct Hin as [-> | Hin]; [lia|].
  specialize (IH _ Hrest Hin). lia.
Qed.

Lemma none_selected_after (fs : list File) (o rangeStart rangeEnd : Z) :
  contiguousFrom o fs = true -> rangeEnd < o ->
  List.filter (selected rangeStart rangeEnd) fs = [].
Proof.
  intros Hc He. induction fs as [|f fs IH] in o, Hc, He |- *; [reflexivity|].
  pose proof (contiguous_lower _ _ f Hc ltac:(left; reflexivity)) as Hlow.
  simpl in Hc. apply andb_true_iff in Hc as [Hc Hrest].
  apply andb_true_iff in Hc as [_ Hlen]. apply Z.leb_le in Hlen.
  simpl. unfold selected at 1.
  destruct (Z.leb_spec (f_offset f) rangeEnd); [lia|]. simpl.
  apply (IH (o + f_length f)); [exact Hrest | lia].
Qed.

(** In a contiguous list the block inside one file selects that file
    alone. *)
Lemma one_selected (fs : list File) (o rangeStart rangeEnd : Z) (file : File) :
  contiguousFrom o fs = true -> In file fs ->
  f_offset file <= rangeStart -> rangeStart <= rangeEnd ->
  rangeEnd < f_offset file + f_length file ->
  List.filter (selected rangeStart rangeEnd) fs = [file].
Proof.
  intros Hc Hin Hs Hse He.
  induction fs as [|f fs IH] in o, Hc, Hin |- *; [destruct Hin|].
  pose proof Hc as Hc0.
  simpl in Hc. apply andb_true_iff in Hc as [Hc Hrest].
  apply andb_true_iff in Hc as [Hoff Hlen].
  apply Z.eqb_eq in Hoff. apply Z.leb_le in Hlen. simpl.
  destruct Hin as [-> | Hin].
  - unfold selected at 1.
    destruct (Z.leb_spec (f_offset file) rangeEnd); [|lia].
    destruct (Z.ltb_spec rangeStart (f_offset file + f_length file)); [|lia].
    simpl. f_equal.
    apply (none_selected_after fs (o + f_length file)); [exact Hrest | lia].
  - pose proof (contiguous_lower _ _ file Hrest Hin) as Hlow.
    unfold selected at 1.
    destruct (Z.ltb_spec rangeStart (f_offset f + f_length f)); [lia|].
    rewrite andb_false_r. apply (IH (o + f_length f)); assumption.
Qed.

(** In a contiguous list the first selected file holds the first byte of
    the block, and every later selected file starts inside the block. *)
Lemma first_selected (fs : list File) (o rangeStart rangeEnd : Z)
    (g : File) (rest : list File) :
  contiguousFrom o fs = true -> o <= rangeStart <= rangeEnd ->
  List.filter (selected rangeStart rangeEnd) fs = g :: rest ->
  f_offset g <= rangeStart /\
  forall f, In f rest -> rangeStart < f_offset f.
Proof.
  intros Hc Ho Hsel.
  induction fs as [|h fs IH] in o, Hc, Ho, Hsel |- *; [discriminate Hsel|].
  simpl in Hc. apply andb_true_iff in Hc as [Hc Hrest].
  apply andb_true_iff in Hc as [Hoff Hlen].
  apply Z.eqb_eq in Hoff. apply Z.leb_le in Hlen.
  simpl in Hsel. destruct (selected rangeStart rangeEnd h) eqn:Hh.
  - injection Hsel as <- <-. split; [lia|].
    intros f Hf. apply filter_In in Hf as [Hf _].
    pose proof (contiguous_lower _ _ f Hrest Hf).
    unfold selected in Hh. apply andb_true_iff in Hh as [_ Hh].
    apply Z.ltb_lt in Hh. lia.
  - apply (IH (o + f_length h)); [exact Hrest | | exact Hsel].
    unfold selected in Hh. apply andb_false_iff in Hh as [Hh | Hh].
    + apply Z.leb_gt in Hh. lia.
    + apply Z.ltb_ge in Hh. lia.
Qed.

(** X13: on a torrent of two or more files that each hold at least one
    byte, the sub-requests of a block of at least one byte are, in the
    order of the file list, one for each file whose extent meets the
    block's byte range and none for any other file; each is addressed to
    the base URL joined with that file's path. *)
Theorem X13_one_subrequest_per_file_met
    (wc : WebConn.t) (tor : Torrent) (pieceIndex offset length : Z) :
  _torrent wc = Some tor -> (2 <= List.length (files tor))%nat ->
  (forall file, In file (files tor) -> 0 < f_length file) ->
  1 <= length ->
  exists requests fs,
    _buildRequests wc pieceIndex offset length = Normal requests /\
    fs `sublist_of` files tor /\
    Forall2 (requestFor wc) fs requests /\
    forall file, In file (files tor) ->
      (In file fs <->
       intersects file (pieceIndex * pieceLength tor + offset)
                       (pieceIndex * pieceLength tor + offset + length - 1)).
Proof.
  intros Ht Hn Hpos Hl.
  destruct (buildRequests_multi wc tor pieceIndex offset length Ht Hn)
    as (requests & Hb & Hfor).
  exists requests. eexists. split; [exact Hb|].
  split; [apply filter_sublist|]. split.
  - eapply Forall2_impl; [exact Hfor|]. intros file rq (Hrq & _). exact Hrq.
  - intros file Hin. rewrite filter_In.
    rewrite selected_iff_intersects by (auto; lia). tauto.
Qed.

(** X14: on a torrent of two or more files, a block that lies inside one
    file is fetched by a single sub-request, to that file's URL, for
    exactly the block's bytes in the file's own coordinates. *)
Theorem X14_block_inside_one_file
    (wc : WebConn.t) (tor : Torrent) (pieceIndex offset length : Z) (file : File) :
  _torrent wc = Some tor -> (2 <= List.length (files tor))%nat ->
  contiguousFrom 0 (files tor) = true -> In file (files tor) ->
  1 <= length ->
  f_offset file <= pieceIndex * pieceLength tor + offset ->
  pieceIndex * pieceLength tor + offset + length
    <= f_offset file + f_length file ->
  _buildRequests wc pieceIndex offset length
  = Normal [ {| r_url := url wc +:+ delimiter (url wc) +:+ f_path file;
                r_pieceIndex := pieceIndex; r_offset := offset;
                r_length := length; r_fileOffsetInRange := Some 0;
                r_start := pieceIndex * pieceLength tor + offset - f_offset file;
                r_end := pieceIndex * pieceLength tor + offset + length - 1
                         - f_offset file |} ].
Proof.
  intros Ht Hn Hc Hin Hl Hs He.
  pose proof (contiguous_lower _ _ file Hc Hin) as Hlow.
  unfold _buildRequests. rewrite Ht. cbv zeta.
  destruct (Nat.leb_spec (List.length (files tor)) 1); [lia|].
  rewrite (one_selected (files tor) 0 _ _ file Hc Hin) by lia.
  cbn [map].
  rewrite (Z.max_r (f_offset file - (pieceIndex * pieceLength tor + offset)) 0) by lia.
  rewrite (Z.max_l (pieceIndex * pieceLength tor + offset - f_offset file) 0) by lia.
  rewrite Z.min_r by lia. reflexivity.
Qed.

(** X15: on a torrent of two or more files laid end to end, the first
    sub-request of a block covers the block from its first byte, and
    every further sub-request starts at byte 0 of its file and supplies a
    later part of the block. *)
Theorem X15_subrequests_follow_the_block
    (wc : WebConn.t) (tor : Torrent) (pieceIndex offset length : Z)
    (first : Request) (rest : list Request) :
  _torrent wc = Some tor -> (2 <= List.length (files tor))%nat ->
  contiguousFrom 0 (files tor) = true ->
  0 <= pieceIndex * pieceLength tor + offset -> 1 <= length ->
  _buildRequests wc pieceIndex offset length = Normal (first :: rest) ->
  r_fileOffsetInRange first = Some 0 /\
  Forall (fun rq => r_start rq = 0 /\
                    exists k, r_fileOffsetInRange rq = Some k /\ 0 < k) rest.
Proof.
  intros Ht Hn Hc H0 Hl Hb. unfold _buildRequests in Hb. rewrite Ht in Hb.
  cbv zeta in Hb.
  destruct (Nat.leb_spec (List.length (files tor)) 1); [lia|].
  injection Hb as Hb.
  destruct (List.filter _ (files tor)) as [|g sel] eqn:Hsel; [discriminate Hb|].
  destruct (first_selected (files tor) 0 (pieceIndex * pieceLength tor + offset)
              (pieceIndex * pieceLength tor + offset + length - 1) g sel Hc
              ltac:(lia) Hsel) as [Hg Hrest].
  cbn [map] in Hb. injection Hb as <- <-. split.
  - cbn [r_fileOffsetInRange]. f_equal. lia.
  - apply Forall_forall. intros rq Hrq.
    apply list_elem_of_In, in_map_iff in Hrq as (f & <- & Hf).
    specialize (Hrest f Hf). cbn [r_start r_fileOffsetInRange].
    split; [lia|]. eexists. split; [reflexivity|]. lia.
Qed.

End SelectionFacts.

(** * More on fetching a block over HTTP *)

Section FetchFacts.

Import WebConn.

Variable VERSION : string.
Variable window : option string.
Variable get_concat : Opts -> JsError + Response * Buffer.
Variable get_head : string -> JsError + Response.

Local Abbreviation makeRequest := (_makeRequest VERSION window get_concat get_head).
Local Abbreviation fetch := (httpRequest VERSION window get_concat get_head).

Lemma Promise_all_rejected (l : list (Settled Buffer)) (e : JsError) :
  In (Rejected e) l -> exists e', Promise_all l = Rejected e' /\ In (Rejected e') l.
Proof.
  induction l as [|s l IH]; [intros []|]. intros Hin. simpl.
  destruct s as [b | e0]; [|exists e0; split; [reflexivity | left; reflexivity]].
  destruct Hin as [Hin | Hin]; [discriminate Hin|].
  destruct (IH Hin) as (e' & -> & Hin'). exists e'. split; [reflexivity|].
  right. exact Hin'.
Qed.

(** X16: when any sub-request of a fetch fails, the whole fetch fails:
    the callback gets the error of a failed sub-request and no data,
    whatever the other sub-requests returned. *)
Theorem X16_one_failure_fails_the_fetch
    (wc : WebConn.t) (pieceIndex offset length : Z)
    (requests : list Request) (rq : Request) (e : JsError) :
  _buildRequests wc pieceIndex offset length = Normal requests ->
  In rq requests -> snd (makeRequest rq) = Rejected e ->
  exists calls e' rq',
    fetch wc pieceIndex offset length = Normal (calls, CbError e') /\
    In rq' requests /\ snd (makeRequest rq') = Rejected e'.
Proof.
  intros Hb Hin Hrej. unfold httpRequest. rewrite Hb. cbn [bindC].
  destruct requests as [|rq0 requests]; [destruct Hin|].
  cbn [List.length Nat.ltb Nat.leb].
  destruct (Promise_all_rejected
              (map snd (map makeRequest (rq0 :: requests))) e) as (e' & He' & Hin').
  { rewrite <- Hrej. apply in_map. apply in_map. exact Hin. }
  rewrite He'. do 2 eexists.
  apply in_map_iff in Hin' as ([calls s] & Hs & Hin').
  apply in_map_iff in Hin' as (rq' & Hrq' & Hin').
  exists rq'. split; [reflexivity|]. split; [exact Hin'|].
  rewrite Hrq'. exact Hs.
Qed.

(** X17: the transport calls of one sub-request: always the GET for its
    range first; after it at most one HEAD probe of the same URL, made
    only in a browser after the GET failed; and after the probe at most
    one more GET, to a different URL, with the method and headers of the
    first. *)
Theorem X17_at_most_one_probe_and_retry (rq : Request) :
  exists rest,
    fst (makeRequest rq) = GetConcat (request_opts VERSION rq) :: rest /\
    (rest = [] \/
     (is_Some window /\
      (exists err, get_concat (request_opts VERSION rq) = inl err) /\
      (rest = [GetHead (r_url rq)] \/
       exists u, u <> r_url rq /\
         rest = [GetHead (r_url rq);
                 GetConcat {| o_url := u; o_method := "GET";
                              o_headers := o_headers (request_opts VERSION rq) |}]))).
Proof.
  unfold _makeRequest. cbv zeta.
  destruct (get_concat (request_opts VERSION rq)) as [err | [res data]] eqn:Hget;
    [|eexists; split; [reflexivity | left; reflexivity]].
  destruct window as [origin|];
    [|eexists; split; [reflexivity | left; reflexivity]].
  destruct (negb _ || _);
    [eexists; split; [reflexivity | left; reflexivity]|].
  unfold _redirectRequest.
  destruct (get_head _) as [errHead | res];
    [eexists; split; [reflexivity|]; right; split; [eauto|];
     split; [eauto|]; left; reflexivity|].
  destruct (negb (statusOk res));
    [eexists; split; [reflexivity|]; right; split; [eauto|];
     split; [eauto|]; left; reflexivity|].
  destruct (String.eqb_spec (res_url res) (o_url (request_opts VERSION rq)))
    as [Heq | Hne];
    eexists; (split; [reflexivity|]); right; (split; [eauto|]);
    (split; [eauto|]); [left; reflexivity|].
  right. exists (res_url res). split; [exact Hne | reflexivity].
Qed.

(** X18: outside a browser a fetch makes exactly one transport call per
    sub-request, the ranged GET, in the order of the sub-requests; it
    never probes and never retries. *)
Theorem X18_one_get_per_subrequest_in_node
    (wc : WebConn.t) (pieceIndex offset length : Z) (requests : list Request) :
  window = None ->
  _buildRequests wc pieceIndex offset length = Normal requests ->
  requests <> [] ->
  exists result,
    fetch wc pieceIndex offset length
    = Normal (map (fun rq => GetConcat (request_opts VERSION rq)) requests, result).
Proof.
  intros Hw Hb Hne. unfold httpRequest. rewrite Hb. cbn [bindC].
  destruct requests as [|rq0 requests]; [congruence|].
  cbn [List.length Nat.ltb Nat.leb]. eexists. f_equal. f_equal.
  clear Hb Hne. generalize (rq0 :: requests). intros l.
  induction l as [|rq l IH]; [reflexivity|].
  cbn [map concat]. rewrite IH.
  unfold _makeRequest at 1. rewrite Hw. cbv zeta.
  destruct (get_concat _) as [err | [res data]]; reflexivity.
Qed.

(** X19: a sub-request yields data only from a GET that was answered
    with a status from 200 to 299, and the data is that answer's body,
    unchanged. *)
Theorem X19_data_only_from_2xx (rq : Request) (data : Buffer) :
  snd (makeRequest rq) = Resolved data ->
  exists opts res,
    In (GetConcat opts) (fst (makeRequest rq)) /\
    get_concat opts = inr (res, data) /\
    200 <= statusCode res < 300.
Proof.
  assert (Hok : forall res, statusOk res = true -> 200 <= statusCode res < 300).
  { intros res H. unfold statusOk in H. apply negb_true_iff, orb_false_iff in H.
    destruct H as [H1 H2]. apply Z.ltb_ge in H1. apply Z.leb_gt in H2. lia. }
  unfold _makeRequest. cbv zeta.
  destruct (get_concat (request_opts VERSION rq)) as [err | [res body]] eqn:Hget.
  - destruct (negb _ || _); [intros [=]|].
    unfold _redirectRequest.
    destruct (get_head _) as [errHead | res]; [intros [=]|].
    destruct (negb (statusOk res)); [intros [=]|].
    destruct (String.eqb _ _); [intros [=]|].
    destruct (get_concat {| o_url := res_url res; o_method := _; o_headers := _ |})
      as [err' | [res' body']] eqn:Hget'; [intros [=]|].
    cbn [fst snd checkStatus]. destruct (statusOk res') eqn:Hs; intros [= <-].
    do 2 eexists. split; [right; right; left; reflexivity|].
    split; [exact Hget' | apply Hok, Hs].
  - cbn [fst snd checkStatus]. destruct (statusOk res) eqn:Hs; intros [= <-].
    do 2 eexists. split; [left; reflexivity|].
    split; [exact Hget | apply Hok, Hs].
Qed.

End FetchFacts.

(** * The handshake and the 404, end to end *)

Section EndToEndFacts.

(** X20: while the bridge is alive, the first handshake is answered by
    the seed's handshake followed by the advertised bitfield, and a
    handshake that arrives after it is not answered again. *)
Theorem X20_handshake_answered_once (wc : WebConn.t) (tor : Torrent)
    (infoHash peerId infoHash' peerId' : string) :
  WebConn.destroyed wc = false -> WebConn.onceHandshake wc = true ->
  WebConn._torrent wc = Some tor ->
  let wc1 := fst (WebConn.emit_handshake wc infoHash peerId) in
  snd (WebConn.emit_handshake wc infoHash peerId)
  = ([WebConn.MsgHandshake infoHash (WebConn.webPeerId wc);
      WebConn.MsgBitfield
        (WebConn.advertised (Z.of_nat (List.length (pieces tor))))],
     Normal ()) /\
  snd (WebConn.emit_handshake wc1 infoHash' peerId') = ([], Normal ()).
Proof.
  intros Hd Ho Ht. cbv zeta.
  assert (H1 : WebConn.emit_handshake wc infoHash peerId
               = (WebConn.with_onceHandshake wc false,
                  ([WebConn.MsgHandshake infoHash (WebConn.webPeerId wc);
                    WebConn.MsgBitfield
                      (WebConn.advertised (Z.of_nat (List.length (pieces tor))))],
                   Normal ()))).
  { unfold WebConn.emit_handshake, WebConn.handshakeListener.
    rewrite Ho, Hd, Ht. reflexivity. }
  rewrite H1. split; reflexivity.
Qed.

(** X21: on a ready torrent, a request whose path component [Number]
    does not read as a number, or reads as a number at or beyond the file
    count, is answered with status 404 and the body [404 Not Found]; the
    handler returns, the server is unchanged, and no file header is set:
    the response has the headers it had, plus the echoed origin. *)
Theorem X21_not_found (url_pathname : string -> option string)
    (toNumber : string -> Server.JsNumber) (mime_lookup : string -> string)
    (rangeParser : Z -> string -> Server.RangeResult)
    (srv : Server.t) (torrent : Torrent) (req : Server.IncomingMessage)
    (res : Server.ServerResponse) (pathname : string) :
  Server._torrent srv = Some torrent -> ready torrent = true ->
  Server.method req <> "OPTIONS" ->
  url_pathname (Server.req_url req) = Some pathname ->
  pathname <> "/" -> pathname <> "/favicon.ico" ->
  Server.Number_isNaN (toNumber (Server.slice1 pathname))
    || Server.geLength (toNumber (Server.slice1 pathname))
                       (List.length (files torrent)) = true ->
  Server.onRequest url_pathname toNumber mime_lookup rangeParser srv req res
  = (srv,
     {| Server.statusCode := 404;
        Server.resHeaders :=
          match Server.truthy (Server.headers req !! "origin") with
          | Some o => <["Access-Control-Allow-Origin" := o]> (Server.resHeaders res)
          | None => Server.resHeaders res
          end;
        Server.body := Server.Ended "404 Not Found" |},
     Normal ()).
Proof.
  intros Ht Hr Hm Hu Hp Hf Hg. unfold Server.onRequest. cbv zeta.
  apply String.eqb_neq in Hm. rewrite Hm, Hu.
  rewrite bool_decide_eq_false_2 by congruence. rewrite Ht, Hr.
  rewrite (onReady_not_found toNumber mime_lookup rangeParser srv torrent req _
             pathname Ht Hp Hg).
  destruct (Server.truthy _); reflexivity.
Qed.

End EndToEndFacts.

(** * The further results on concrete runs *)

Lemma X1_witness :
  TCPPool._pendingConns aPool = Some [aConn] /\ NoDup [aConn] /\ In aConn [aConn] /\
  exists conns',
    TCPPool._cleanupPending aPool aConn
    = {| TCPPool.server := TCPPool.server aPool;
         TCPPool._client := TCPPool._client aPool;
         TCPPool._pendingConns := Some conns' |} /\
    ~ In aConn conns' /\ Permutation (aConn :: conns') [aConn] /\ NoDup conns'.
Proof.
  split; [reflexivity|]. split; [apply NoDup_singleton|].
  split; [left; reflexivity|].
  apply (X1_cleanup_removes_conn aPool [aConn] aConn);
    [reflexivity | apply NoDup_singleton | left; reflexivity].
Defined.

Lemma X2_witness :
  (forall conns, TCPPool._pendingConns aPool = Some conns -> ~ In bConn conns) /\
  TCPPool._cleanupPending aPool bConn = aPool.
Proof.
  assert (H : forall conns, TCPPool._pendingConns aPool = Some conns ->
                            ~ In bConn conns).
  { intros conns [= <-] [E | []]. discriminate E. }
  split; [exact H | apply (X2_cleanup_without_effect aPool bConn H)].
Defined.


Lemma X4_witness :
  let client := {| TCPPool.torrents := {[ "c0ffee" := [] ]} |} in
  TCPPool._pendingConns aPool = Some [aConn] /\
  TCPPool.remoteAddress bConn = Some "198.51.100.4" /\
  ~ In bConn [aConn] /\
  TCPPool._client aPool = Some client /\
  TCPPool.Client_get client "c0ffee" = Some [] /\
  exists pool1 pool2 client2,
    TCPPool._onConnection peerOf aPool bConn
    = (pool1, [], Normal (Some (peerOf bConn))) /\
    TCPPool.onHandshake pool1 bConn (peerOf bConn) "c0ffee" "-WW0001-"
    = (pool2, [TCPPool.PeerOnHandshake (peerOf bConn) "c0ffee" "-WW0001-"],
       Normal ()) /\
    TCPPool._pendingConns pool2 = Some [aConn] /\
    TCPPool._client pool2 = Some client2 /\
    TCPPool.torrents client2 !! "c0ffee" = Some ([] ++ [peerOf bConn]) /\
    (forall other, other <> "c0ffee" ->
       TCPPool.torrents client2 !! other = TCPPool.torrents client !! other).
Proof.
  intros client.
  assert (Hn : ~ In bConn [aConn]) by (intros [E | []]; discriminate E).
  split; [reflexivity|]. split; [reflexivity|]. split; [exact Hn|].
  split; [reflexivity|]. split; [reflexivity|].
  apply (X4_accept_then_route peerOf aPool [aConn] bConn "198.51.100.4" client []
           "c0ffee" "-WW0001-");
    [reflexivity | reflexivity | exact Hn | reflexivity | reflexivity].
Defined.


Lemma X7_witness :
  Server._closed liveServer = false /\
  Server._torrent liveServer = Some threeThousand /\
  exists srv1,
    Server.destroy liveServer (Some (Cb 1))
    = (srv1,
       map Server.SocketDestroy [3%nat; 4%nat]
         ++ [Server.HttpServerClose (Cb 1)],
       Normal ()) /\
    Server._pendingReady srv1 = [] /\ Server._torrent srv1 = None /\
    Server.destroy (Server.socketsClosed srv1 [3%nat; 4%nat]) (Some (Cb 2))
    = (Server.socketsClosed srv1 [3%nat; 4%nat], [Server.NextTick (Cb 2)],
       Normal ()) /\
    List.filter closesListener
      (snd (fst (Server.destroy (Server.socketsClosed srv1 [3%nat; 4%nat])
                   (Some (Cb 2))))) = [].
Proof.
  split; [reflexivity|]. split; [reflexivity|].
  apply (X7_server_destroy_twice liveServer threeThousand (Some (Cb 1))
           (Some (Cb 2))); reflexivity.
Defined.

Lemma X8_witness :
  let req := request "GET" "/0" [("origin", "https://player.example")] in
  Server.truthy (Server.headers req !! "origin") = Some "https://player.example" /\
  (if String.eqb (Server.method req) "OPTIONS"
   then Server.truthy (Server.headers req !! "access-control-request-headers")
   else None) = None /\
  Server.resHeaders
    (snd (fst (Server.onRequest samplePathname sampleNumber sampleMime
                 sampleRangeParser (Server.constructor threeThousand) req
                 Server.freshResponse)))
    !! "Access-Control-Allow-Origin"
  = Some "https://player.example".
Proof.
  intros req. split; [reflexivity|]. split; [reflexivity|].
  apply (X8_origin_echoed samplePathname sampleNumber sampleMime sampleRangeParser
           (Server.constructor threeThousand) req Server.freshResponse
           "https://player.example"); reflexivity.
Defined.

Lemma X9_witness :
  let srv := Server.constructor threeThousand in
  let req := request "GET" "/0" [("range", "bytes=0-99")] in
  let file := plainFile "a.flac" 1000 0 in
  let r := {| Server.start := 0; Server.end_ := 99 |} in
  let answer := Server.onReady sampleNumber sampleMime sampleRangeParser srv req
                  Server.freshResponse (Some "/0") in
  Server.body (fst answer) = Server.Pumped file (Some r) /\
  Server.body Server.freshResponse = Server.Open /\
  snd answer = Normal () /\
  Server.method req <> "HEAD" /\
  (exists torrent, Server._torrent srv = Some torrent /\ In file (files torrent)) /\
  Server.resHeaders (fst answer) !! "Accept-Ranges" = Some "bytes" /\
  Server.resHeaders (fst answer) !! "transferMode.dlna.org" = Some "Streaming" /\
  Server.resHeaders (fst answer) !! "contentFeatures.dlna.org"
  = Some Server.DLNA_HEADER /\
  Server.statusCode (fst answer) = 206 /\
  Server.resHeaders (fst answer) !! "Content-Length"
  = Some (show_num (Server.end_ r - Server.start r + 1)) /\
  Server.resHeaders (fst answer) !! "Content-Range"
  = Some ("bytes " +:+ show_num (Server.start r) +:+ "-"
            +:+ show_num (Server.end_ r) +:+ "/" +:+ show_num (f_length file)).
Proof.
  intros srv req file r answer.
  split; [reflexivity|]. split; [reflexivity|].
  apply (X9_stream_only_when_complete sampleNumber sampleMime sampleRangeParser
           srv req Server.freshResponse (Some "/0") file (Some r)); reflexivity.
Defined.

Lemma X10_witness :
  let req := request "GET" "/0" [] in
  Server._torrent waitingServer = Some notReady /\ ready notReady = false /\
  (if String.eqb (Server.method req) "OPTIONS"
   then Server.truthy (Server.headers req !! "access-control-request-headers")
   else None) = None /\
  samplePathname (Server.req_url req) <> Some "/favicon.ico" /\
  exists p,
    Server.onRequest samplePathname sampleNumber sampleMime sampleRangeParser
      waitingServer req Server.freshResponse
    = ({| Server._torrent := Server._torrent waitingServer;
          Server._sockets := Server._sockets waitingServer;
          Server._pendingReady := Server._pendingReady waitingServer ++ [p];
          Server._closed := Server._closed waitingServer |},
       Server.p_res p, Normal ()) /\
    Server.body (Server.p_res p) = Server.body Server.freshResponse /\
    forall (later : Server.t) (torrent' : Torrent) (i : Z),
      Server._torrent later = Some torrent' -> ready torrent' = true ->
      0 <= i -> Server._pendingReady later !! Z.to_nat i = Some p ->
      exists later',
        Server.parkedOnReady sampleNumber sampleMime sampleRangeParser later i p
        = (later',
           snd (fst (Server.onRequest samplePathname sampleNumber sampleMime
                       sampleRangeParser later req Server.freshResponse)),
           snd (Server.onRequest samplePathname sampleNumber sampleMime
                  sampleRangeParser later req Server.freshResponse)) /\
        Permutation (p :: Server._pendingReady later') (Server._pendingReady later) /\
        Server._torrent later' = Server._torrent later /\
        Server._sockets later' = Server._sockets later.
Proof.
  intros req.
  split; [reflexivity|]. split; [reflexivity|]. split; [reflexivity|].
  split; [discriminate|].
  apply (X10_parked_until_ready samplePathname sampleNumber sampleMime
           sampleRangeParser waitingServer notReady req Server.freshResponse);
    [reflexivity | reflexivity | reflexivity | discriminate].
Defined.

Lemma X11_witness :
  0 <= 10 /\ 0 <= 10 /\
  (WebConn.BitField.get (WebConn.advertised 10) 10 = true
   <-> 10 < 10 \/ (10 = 10 /\ 10 mod 8 <> 0)) /\
  Z.of_nat (List.length (WebConn.advertised 10)) = (10 + 7) / 8.
Proof.
  split; [lia|]. split; [lia|]. apply (X11_advertised_bits 10 10); lia.
Defined.

Lemma X12_witness :
  WebConn.onceInterested (seedOf threePieces) = true /\
  snd (WebConn.emit_interested_times 3 (seedOf threePieces)) = [WebConn.MsgUnchoke] /\
  WebConn.onceInterested (fst (WebConn.emit_interested_times 3 (seedOf threePieces)))
  = false.
Proof.
  split; [reflexivity|].
  apply (X12_unchoke_once 2 (seedOf threePieces)). reflexivity.
Defined.

Lemma X13_witness :
  WebConn._torrent (seedOf threeFiles) = Some threeFiles /\
  (2 <= List.length (files threeFiles))%nat /\
  (forall file, In file (files threeFiles) -> 0 < f_length file) /\
  1 <= 100 /\
  exists requests fs,
    WebConn._buildRequests (seedOf threeFiles) 0 120 100 = Normal requests /\
    fs `sublist_of` files threeFiles /\
    Forall2 (requestFor (seedOf threeFiles)) fs requests /\
    forall file, In file (files threeFiles) ->
      (In file fs <->
       intersects file (0 * pieceLength threeFiles + 120)
                       (0 * pieceLength threeFiles + 120 + 100 - 1)).
Proof.
  assert (Hpos : forall file, In file (files threeFiles) -> 0 < f_length file).
  { intros file [<- | [<- | [<- | []]]]; simpl; lia. }
  split; [reflexivity|]. split; [simpl; lia|]. split; [exact Hpos|].
  split; [lia|].
  apply (X13_one_subrequest_per_file_met (seedOf threeFiles) threeFiles 0 120 100);
    [reflexivity | simpl; lia | exact Hpos | lia].
Defined.

Lemma X14_witness :
  let file := plainFile "b.flac" 50 100 in
  WebConn._torrent (seedOf threeFiles) = Some threeFiles /\
  (2 <= List.length (files threeFiles))%nat /\
  contiguousFrom 0 (files threeFiles) = true /\
  In file (files threeFiles) /\
  1 <= 20 /\
  f_offset file <= 0 * pieceLength threeFiles + 110 /\
  0 * pieceLength threeFiles + 110 + 20 <= f_offset file + f_length file /\
  WebConn._buildRequests (seedOf threeFiles) 0 110 20
  = Normal [ {| WebConn.r_url :=
                  WebConn.url (seedOf threeFiles)
                    +:+ WebConn.delimiter (WebConn.url (seedOf threeFiles))
                    +:+ f_path file;
                WebConn.r_pieceIndex := 0; WebConn.r_offset := 110;
                WebConn.r_length := 20; WebConn.r_fileOffsetInRange := Some 0;
                WebConn.r_start := 0 * pieceLength threeFiles + 110 - f_offset file;
                WebConn.r_end := 0 * pieceLength threeFiles + 110 + 20 - 1
                                 - f_offset file |} ].
Proof.
  intros file.
  split; [reflexivity|]. split; [simpl; lia|]. split; [reflexivity|].
  split; [right; left; reflexivity|]. split; [lia|].
  split; [simpl; lia|]. split; [simpl; lia|].
  apply (X14_block_inside_one_file (seedOf threeFiles) threeFiles 0 110 20 file);
    [reflexivity | simpl; lia | reflexivity | right; left; reflexivity | lia
    | simpl; lia | simpl; lia].
Defined.

Lemma X15_witness :
  WebConn._torrent (seedOf threeFiles) = Some threeFiles /\
  (2 <= List.length (files threeFiles))%nat /\
  contiguousFrom 0 (files threeFiles) = true /\
  0 <= 0 * pieceLength threeFiles + 120 /\ 1 <= 100 /\
  exists first rest,
    WebConn._buildRequests (seedOf threeFiles) 0 120 100 = Normal (first :: rest) /\
    WebConn.r_fileOffsetInRange first = Some 0 /\
    Forall (fun rq => WebConn.r_start rq = 0 /\
                      exists k, WebConn.r_fileOffsetInRange rq = Some k /\ 0 < k)
           rest.
Proof.
  split; [reflexivity|]. split; [simpl; lia|]. split; [reflexivity|].
  split; [simpl; lia|]. split; [lia|].
  do 2 eexists. split; [reflexivity|].
  apply (X15_subrequests_follow_the_block (seedOf threeFiles) threeFiles 0 120 100);
    [reflexivity | simpl; lia | reflexivity | simpl; lia | lia | reflexivity].
Defined.

Lemma X16_witness :
  exists requests rq e,
    WebConn._buildRequests (seedOf twoFiles) 0 2 4 = Normal requests /\
    In rq requests /\
    snd (WebConn._makeRequest "0.98.0" None notFoundGet deadHead rq)
    = WebConn.Rejected e /\
    exists calls e' rq',
      WebConn.httpRequest "0.98.0" None notFoundGet deadHead (seedOf twoFiles) 0 2 4
      = Normal (calls, WebConn.CbError e') /\
      In rq' requests /\
      snd (WebConn._makeRequest "0.98.0" None notFoundGet deadHead rq')
      = WebConn.Rejected e'.
Proof.
  do 3 eexists. split; [reflexivity|]. split; [left; reflexivity|].
  split; [reflexivity|].
  eapply (X16_one_failure_fails_the_fetch "0.98.0" None notFoundGet deadHead
            (seedOf twoFiles) 0 2 4);
    [reflexivity | left; reflexivity | reflexivity].
Defined.

Lemma X18_witness :
  @None string = None /\
  exists requests,
    WebConn._buildRequests (seedOf twoFiles) 0 2 4 = Normal requests /\
    requests <> [] /\
    exists result,
      WebConn.httpRequest "0.98.0" None wholeFileGet deadHead (seedOf twoFiles) 0 2 4
      = Normal (map (fun rq => WebConn.GetConcat (WebConn.request_opts "0.98.0" rq))
                    requests, result).
Proof.
  split; [reflexivity|]. eexists. split; [reflexivity|]. split; [discriminate|].
  apply (X18_one_get_per_subrequest_in_node "0.98.0" None wholeFileGet deadHead
           (seedOf twoFiles) 0 2 4);
    [reflexivity | reflexivity | discriminate].
Defined.

Lemma X19_witness :
  let rq := {| WebConn.r_url := "http://seed.example/pub";
               WebConn.r_pieceIndex := 0; WebConn.r_offset := 0;
               WebConn.r_length := 3; WebConn.r_fileOffsetInRange := None;
               WebConn.r_start := 0; WebConn.r_end := 2 |} in
  let data := [Byte.x01; Byte.x02; Byte.x03] in
  snd (WebConn._makeRequest "0.98.0" None wholeFileGet deadHead rq)
  = WebConn.Resolved data /\
  exists opts res,
    In (WebConn.GetConcat opts)
       (fst (WebConn._makeRequest "0.98.0" None wholeFileGet deadHead rq)) /\
    wholeFileGet opts = inr (res, data) /\
    200 <= WebConn.statusCode res < 300.
Proof.
  intros rq data. split; [reflexivity|].
  apply (X19_data_only_from_2xx "0.98.0" None wholeFileGet deadHead rq data).
  reflexivity.
Defined.

Lemma X20_witness :
  let wc := seedOf threePieces in
  WebConn.destroyed wc = false /\ WebConn.onceHandshake wc = true /\
  WebConn._torrent wc = Some threePieces /\
  snd (WebConn.emit_handshake wc "c0ffee" "-WW0001-")
  = ([WebConn.MsgHandshake "c0ffee" (WebConn.webPeerId wc);
      WebConn.MsgBitfield
        (WebConn.advertised (Z.of_nat (List.length (pieces threePieces))))],
     Normal ()) /\
  snd (WebConn.emit_handshake (fst (WebConn.emit_handshake wc "c0ffee" "-WW0001-"))
         "c0ffee" "-WW0002-")
  = ([], Normal ()).
Proof.
  intros wc. split; [reflexivity|]. split; [reflexivity|]. split; [reflexivity|].
  apply (X20_handshake_answered_once wc threePieces "c0ffee" "-WW0001-"
           "c0ffee" "-WW0002-"); reflexivity.
Defined.

Lemma X21_witness :
  let srv := Server.constructor threeThousand in
  let req := request "GET" "/99" [] in
  Server._torrent srv = Some threeThousand /\ ready threeThousand = true /\
  Server.method req <> "OPTIONS" /\
  samplePathname (Server.req_url req) = Some "/99" /\
  "/99" <> "/" /\ "/99" <> "/favicon.ico" /\
  Server.Number_isNaN (sampleNumber (Server.slice1 "/99"))
    || Server.geLength (sampleNumber (Server.slice1 "/99"))
                       (List.length (files threeThousand)) = true /\
  Server.onRequest samplePathname sampleNumber sampleMime sampleRangeParser
    srv req Server.freshResponse
  = (srv,
     {| Server.statusCode := 404;
        Server.resHeaders :=
          match Server.truthy (Server.headers req !! "origin") with
          | Some o => <["Access-Control-Allow-Origin" := o]>
                        (Server.resHeaders Server.freshResponse)
          | None => Server.resHeaders Server.freshResponse
          end;
        Server.body := Server.Ended "404 Not Found" |},
     Normal ()).
Proof.
  intros srv req.
  split; [reflexivity|]. split; [reflexivity|]. split; [discriminate|].
  split; [reflexivity|]. split; [discriminate|]. split; [discriminate|].
  split; [reflexivity|].
  apply (X21_not_found samplePathname sampleNumber sampleMime sampleRangeParser
           srv threeThousand req Server.freshResponse "/99");
    [reflexivity | reflexivity | discriminate | reflexivity | discriminate
    | discriminate | reflexivity].
Defined.

(** * Joining the base URL and a file path; requests after [close] *)

Section JoinFacts.



(** X23: [close] drops the torrent, so a request that still reaches
    [onRequest] afterwards, other than a preflight or the favicon, is not
    answered: the handler throws a [TypeError] reading [ready] of null and
    leaves the response open. *)
Theorem X23_request_after_close_throws
    (url_pathname : string -> option string)
    (toNumber : string -> Server.JsNumber) (mime_lookup : string -> string)
    (rangeParser : Z -> string -> Server.RangeResult)
    (srv srv1 : Server.t) (cb : Callback) (effs : list Server.Effect)
    (req : Server.IncomingMessage) (res : Server.ServerResponse) :
  Server.close srv cb = (srv1, effs, Normal ()) ->
  (if String.eqb (Server.method req) "OPTIONS"
   then Server.truthy (Server.headers req !! "access-control-request-headers")
   else None) = None ->
  url_pathname (Server.req_url req) <> Some "/favicon.ico" ->
  Server._pendingReady srv1 = [] /\
  snd (Server.onRequest url_pathname toNumber mime_lookup rangeParser srv1 req res)
  = Throw (TypeError "Cannot read property 'ready' of null") /\
  Server.body (snd (fst (Server.onRequest url_pathname toNumber mime_lookup
                           rangeParser srv1 req res)))
  = Server.body res.
Proof.
  intros Hclose Hpre Hfav.
  assert (Hsrv1 : srv1 = {| Server._torrent := None;
                            Server._sockets := Server._sockets srv;
                            Server._pendingReady := [];
                            Server._closed := true |}).
  { unfold Server.close in Hclose.
    destruct (Server._pendingReady srv), (Server._torrent srv);
      injection Hclose as <- _; try reflexivity; discriminate. }
  subst srv1. split; [reflexivity|].
  unfold Server.onRequest. cbv zeta. rewrite Hpre.
  rewrite bool_decide_eq_false_2 by exact Hfav. cbn [Server._torrent fst snd].
  split; [reflexivity|].
  destruct (Server.truthy (Server.headers req !! "origin")); reflexivity.
Qed.

End JoinFacts.

Lemma X23_witness :
  let req := request "GET" "/0" [] in
  let srv1 := {| Server._torrent := None; Server._sockets := [3%nat; 4%nat];
                 Server._pendingReady := []; Server._closed := true |} in
  Server.close liveServer (Cb 1) = (srv1, [Server.HttpServerClose (Cb 1)], Normal ()) /\
  (if String.eqb (Server.method req) "OPTIONS"
   then Server.truthy (Server.headers req !! "access-control-request-headers")
   else None) = None /\
  samplePathname (Server.req_url req) <> Some "/favicon.ico" /\
  Server._pendingReady srv1 = [] /\
  snd (Server.onRequest samplePathname sampleNumber sampleMime sampleRangeParser
         srv1 req Server.freshResponse)
  = Throw (TypeError "Cannot read property 'ready' of null") /\
  Server.body (snd (fst (Server.onRequest samplePathname sampleNumber sampleMime
                           sampleRangeParser srv1 req Server.freshResponse)))
  = Server.body Server.freshResponse.
Proof.
  intros req srv1.
  split; [reflexivity|]. split; [reflexivity|]. split; [discriminate|].
  apply (X23_request_after_close_throws samplePathname sampleNumber sampleMime
           sampleRangeParser liveServer srv1 (Cb 1)
           [Server.HttpServerClose (Cb 1)] req Server.freshResponse);
    [reflexivity | reflexivity | discriminate].
Defined.
